(** * The workflow dashboard client (web/static/js/workflow.js)

    A shallow embedding of the [workflowApp] object: the pure rendering
    helpers ([escapeHtml], [groupPhases], [renderActions], [renderBudget])
    and the event handlers around the per-execution live-update channel
    ([handleWebSocketMessage], [showApprovalBanner], [respondToApproval],
    [connectWebSocket], ...), written as state transformers over an explicit
    client state.

    Conventions of the embedding.
    - JavaScript numbers are exact rationals ([Q]); clock readings
      ([Date.now()]) are integers of milliseconds ([Z]).
    - A JavaScript string is held as the bytes of its UTF-8 encoding.
    - Markup built by template literals is kept as the tree it denotes: a
      button is a [button] record, a phase card is the phase it is drawn
      from, and so on.  [innerHTML] of an element is the value of that tree.
    - The elements that the page template ships ([pipeline-header],
      [pipeline-view], [pipeline-title], [pipeline-status],
      [pipeline-actions], [budget-fill], [budget-text], [execution-list],
      the two counters) are always present; the elements that the script
      creates on demand ([approval-banner], [todo-panel],
      [toast-container]) are optional. *)

From Stdlib Require Import List String Ascii ZArith QArith Qminmax Qround Bool Lia.
From Stdlib Require Import Numbers.DecimalString.
From Stdlib Require Import Sorting.Permutation Sorting.Sorted Lqa.
Import ListNotations.

Open Scope string_scope.

(** ** JavaScript values that may be missing *)

(** A string-valued property of a JSON object: absent ([undefined]),
    [null], or a string.  [===] on such values is plain equality. *)
Inductive js_string : Type :=
| Undefined
| Null
| JStr (s : string).

Definition js_string_eqb (a b : js_string) : bool :=
  match a, b with
  | Undefined, Undefined => true
  | Null, Null => true
  | JStr s, JStr t => String.eqb s t
  | _, _ => false
  end.

(** [x || 0] for a numeric property: a missing value, and [0] itself, give
    [0]. *)
Definition or_zero (x : option Q) : Q :=
  match x with
  | Some q => q
  | None => 0
  end.

(** Comparison of numbers, [a > b]. *)
Definition Qgtb (a b : Q) : bool := negb (Qle_bool a b).

(** ** The DOM fragment behind [escapeHtml] *)

Module Dom.

(** The two bytes of U+00A0 (no-break space) in UTF-8. *)
Definition nbsp_lead : ascii := ascii_of_nat 194.
Definition nbsp_trail : ascii := ascii_of_nat 160.

(** The HTML fragment serialisation of the data of a text node: [&],
    no-break space, [<] and [>] become character references, everything
    else is copied. *)
Fixpoint escape_text (s : string) : string :=
  match s with
  | EmptyString => EmptyString
  | String c rest =>
      if (c =? "&")%char then "&amp;" ++ escape_text rest
      else if (c =? "<")%char then "&lt;" ++ escape_text rest
      else if (c =? ">")%char then "&gt;" ++ escape_text rest
      else
        match rest with
        | String d rest' =>
            if (c =? nbsp_lead)%char && (d =? nbsp_trail)%char
            then "&nbsp;" ++ escape_text rest'
            else String c (escape_text rest)
        | EmptyString => String c EmptyString
        end
  end.

Inductive node : Type :=
| Text (data : string).

Record element : Type := mkElement {
  tagName : string;
  childNodes : list node
}.

Definition createElement (tag : string) : element :=
  {| tagName := tag; childNodes := [] |}.

(** The [textContent] setter: all children are replaced by one text node,
    or by nothing when the string is empty. *)
Definition set_textContent (e : element) (s : string) : element :=
  {| tagName := tagName e;
     childNodes := match s with
                   | EmptyString => []
                   | _ => [Text s]
                   end |}.

Definition serialize_node (n : node) : string :=
  match n with
  | Text data => escape_text data
  end.

(** The [innerHTML] getter: the serialisation of the children, in order. *)
Definition innerHTML (e : element) : string :=
  String.concat "" (map serialize_node (childNodes e)).

End Dom.

(** [escapeHtml(str)] (the same three lines appear as [Toast.escapeHtml] and
    [Autowrkers.escapeHtml] in app.js). *)
Definition escapeHtml (str : string) : string :=
  let div := Dom.createElement "div" in
  let div := Dom.set_textContent div str in
  Dom.innerHTML div.

(** [truncate(str, len)] *)
Definition truncate (str : string) (len : nat) : string :=
  if Nat.ltb len (String.length str)
  then String.substring 0 len str ++ "..."
  else str.

(** ** Number formatting *)

Definition digits (n : Z) : string :=
  NilZero.string_of_uint (N.to_uint (Z.to_N n)).

(** [s.padStart(len, '0')] *)
Fixpoint zeros (n : nat) : string :=
  match n with
  | O => EmptyString
  | S n' => String "0" (zeros n')
  end.

Definition padStart0 (len : nat) (s : string) : string :=
  zeros (len - String.length s) ++ s.

(** [x.toFixed(f)] below 1e21: the integer [n] with [n / 10^f] nearest to
    [x] (the larger one on a tie), printed with [f] decimals; a negative
    [x] is printed as [-] followed by the rendering of [-x]. *)
Definition toFixed_nonneg (x : Q) (f : nat) : string :=
  let n := Qfloor (x * inject_Z (10 ^ Z.of_nat f) + (1 # 2)) in
  let m := padStart0 (S f) (digits n) in
  let k := (String.length m - f)%nat in
  match f with
  | O => m
  | _ => String.substring 0 k m ++ "." ++ String.substring k f m
  end.

Definition toFixed (x : Q) (f : nat) : string :=
  if Qgtb 0 x then "-" ++ toFixed_nonneg (- x) f else toFixed_nonneg x f.

(** ** Records received from the server *)

(** A phase execution, as listed in [execution.phase_executions]. *)
Record phase : Type := mkPhase {
  phase_key : js_string;            (* id *)
  phase_id : js_string;
  phase_name : js_string;
  phase_role : js_string;
  phase_status : string;            (* status *)
  provider_used : js_string;
  model_used : js_string;
  order : option Z;
  parallel_with : js_string;
  duration_seconds : option Q
}.

(** A phase definition of the template, as listed in [template_phases]. *)
Record template_phase : Type := mkTemplatePhase {
  tp_id : js_string;
  tp_name : js_string;
  tp_role : js_string;
  tp_provider_type : js_string;     (* provider_config?.provider_type *)
  tp_model_name : js_string;        (* provider_config?.model_name *)
  tp_order : option Z
}.

Record execution : Type := mkExecution {
  exec_id : string;                 (* id *)
  exec_status : string;             (* status *)
  task_description : option string;
  phase_executions : option (list phase)
}.

Record budget : Type := mkBudget {
  total_cost : option Q;
  limit : option Q
}.

Record todo : Type := mkTodo {
  todo_content : string;
  todo_priority : string;
  todo_status : string
}.

Record progress : Type := mkProgress {
  progress_percent : option Q;
  progress_completed : option Q;
  progress_total : option Q;
  progress_in_progress : option Q
}.

(** ** [groupPhases] *)

(** [a.order || 0] *)
Definition order_key (p : phase) : Z :=
  match order p with
  | Some o => o
  | None => 0%Z
  end.

(** [[...phases].sort((a, b) => (a.order || 0) - (b.order || 0))]: the sort
    is stable, so phases of equal order keep their relative position. *)
Fixpoint insert_by_order (x : phase) (l : list phase) : list phase :=
  match l with
  | [] => [x]
  | y :: l' =>
      if (order_key x <=? order_key y)%Z then x :: y :: l'
      else y :: insert_by_order x l'
  end.

Definition sort_by_order (phases : list phase) : list phase :=
  fold_right insert_by_order [] phases.

(** One [<div class="pipeline-phase">] of the pipeline: either a
    [parallel-group] holding the card of [head] followed by the cards of
    [members], or the single card of a phase; [connector] tells whether the
    [phase-connector] div follows. *)
Inductive pipeline_phase : Type :=
| ParallelGroup (head : phase) (members : list phase) (connector : bool)
| Standalone (p : phase) (connector : bool).

(** [p => p.parallel_with === phase.phase_id] *)
Definition runs_alongside (target : phase) (p : phase) : bool :=
  js_string_eqb (parallel_with p) (phase_id target).

(** The [while (i < sorted.length)] loop.  Every turn advances [i] by at
    least one, so [fuel = sorted.length] turns are never used up (see
    [groupLoop_fuel]). *)
Fixpoint groupLoop (fuel : nat) (sorted : list phase) (i : nat)
  : list pipeline_phase :=
  match fuel with
  | O => []
  | S fuel' =>
      match nth_error sorted i with
      | None => []
      | Some ph =>
          let parallel := filter (runs_alongside ph) sorted in
          let n := Z.of_nat (List.length sorted) in
          let k := Z.of_nat (List.length parallel) in
          if (0 <? k)%Z then
            ParallelGroup ph parallel (Z.of_nat i <? n - k - 1)%Z
              :: groupLoop fuel' sorted (i + List.length parallel + 1)
          else if negb (existsb (runs_alongside ph) sorted) then
            Standalone ph (Z.of_nat i <? n - 1)%Z
              :: groupLoop fuel' sorted (i + 1)
          else groupLoop fuel' sorted (i + 1)
      end
  end.

Definition groupPhases (phases : list phase) : list pipeline_phase :=
  let sorted := sort_by_order phases in
  groupLoop (List.length sorted) sorted 0.

(** The phase cards of a rendered pipeline, in document order. *)
Definition cards_of (b : pipeline_phase) : list phase :=
  match b with
  | ParallelGroup head members _ => head :: members
  | Standalone p _ => [p]
  end.

Definition rendered_cards (html : list pipeline_phase) : list phase :=
  flat_map cards_of html.

(** ** [renderActions] *)

(** The call written in an [onclick] attribute. *)
Inductive onclick : Type :=
| runExecution (id : string)
| cancelExecution (id : string)
| resumeExecution (id : string)
| showArtifacts (id : string)
| respondToApproval_call (approved : bool).

Record button : Type := mkButton {
  btn_class : string;
  btn_onclick : onclick;
  btn_label : string
}.

Definition status_is (e : execution) (s : string) : bool :=
  String.eqb (exec_status e) s.

Definition renderActions (e : execution) : list button :=
  let actions := [] in
  let actions :=
    if status_is e "pending"
    then (actions ++ [mkButton "btn btn-primary" (runExecution (exec_id e)) "Run"])%list
    else actions in
  let actions :=
    if status_is e "running"
    then (actions ++ [mkButton "btn btn-danger" (cancelExecution (exec_id e)) "Cancel"])%list
    else actions in
  let actions :=
    if status_is e "paused"
    then ((actions
            ++ [mkButton "btn btn-primary" (resumeExecution (exec_id e)) "Resume"])
            ++ [mkButton "btn btn-danger" (cancelExecution (exec_id e)) "Cancel"])%list
    else actions in
  let actions :=
    if status_is e "awaiting_approval"
    then (actions ++ [mkButton "btn btn-danger" (cancelExecution (exec_id e)) "Cancel"])%list
    else actions in
  let actions :=
    if existsb (String.eqb (exec_status e)) ["completed"; "failed"; "cancelled"]
    then (actions ++ [mkButton "btn" (showArtifacts (exec_id e)) "View Artifacts"])%list
    else actions in
  actions.

(** The buttons that start, resume and cancel the execution [e]. *)
Definition is_run_control (e : execution) (b : button) : bool :=
  match btn_onclick b with
  | runExecution id => String.eqb id (exec_id e) && String.eqb (btn_label b) "Run"
  | _ => false
  end.

Definition is_resume_control (e : execution) (b : button) : bool :=
  match btn_onclick b with
  | resumeExecution id =>
      String.eqb id (exec_id e) && String.eqb (btn_label b) "Resume"
  | _ => false
  end.

Definition is_cancel_control (e : execution) (b : button) : bool :=
  match btn_onclick b with
  | cancelExecution id =>
      String.eqb id (exec_id e) && String.eqb (btn_label b) "Cancel"
  | _ => false
  end.

(** ** [renderBudget] *)

Record budget_bar : Type := mkBudgetBar {
  fill_width_percent : Q;           (* style.width, in percent *)
  fill_classList : list string;
  budget_text : string
}.

Definition renderBudget (b : option budget) (bar : budget_bar) : budget_bar :=
  match b with
  | None => bar
  | Some b =>
      let used := or_zero (total_cost b) in
      let limit := or_zero (limit b) in
      let percent :=
        if Qgtb limit 0 then Qmin ((used / limit) * 100) 100 else 0 in
      let width := if Qgtb limit 0 then percent else 0 in
      let classList := ["budget-fill"] in
      let classList :=
        if Qgtb percent 80 then (classList ++ ["danger"])%list
        else if Qgtb percent 50 then (classList ++ ["warning"])%list
        else classList in
      let text :=
        if Qgtb limit 0
        then "$" ++ toFixed used 2 ++ " / $" ++ toFixed limit 2
        else "$" ++ toFixed used 2 in
      {| fill_width_percent := width;
         fill_classList := classList;
         budget_text := text |}
  end.

(** ** The client state *)

(** [this.pendingApproval] *)
Record approval : Type := mkApproval {
  approval_message : string;
  approval_timeoutSeconds : Q;
  startedAt : Z
}.

(** The fields of [workflowApp] that the handlers below read or write.
    Timer and socket handles are positive numbers, hence truthy. *)
Record workflowApp : Type := mkApp {
  executions : list execution;
  selectedExecution : option execution;
  ws : option positive;
  currentFilter : string;
  pendingApproval : option approval;
  approvalCountdownInterval : option positive;
  isLoading : bool;
  wsReconnectAttempts : nat;
  wsReconnectTimeout : option positive;
  maxWsReconnectAttempts : nat;
  todos : list todo;
  todoProgress : option progress
}.

(** *** The document *)

Record status_badge : Type := mkBadge {
  badge_className : string;
  badge_text : string
}.

(** [innerHTML] of [pipeline-view]. *)
Inductive view : Type :=
| StaticView                        (* whatever the page showed before *)
| NoPhasesPlaceholder
| PipelineContainer (phases : list pipeline_phase).

(** One card of the execution list (its mini pipeline and meta line are
    functions of the same execution and are not kept). *)
Record execution_card : Type := mkCard {
  card_active : bool;
  card_execution_id : string;
  card_title_attr : string;
  card_title : string;
  card_status : string
}.

Inductive list_view : Type :=
| EmptyState
| Cards (cards : list execution_card).

(** [innerHTML] of the approval banner. *)
Record banner_content : Type := mkBannerContent {
  approval_timer : string;
  approval_text : string;
  approval_actions : list button
}.

Record banner : Type := mkBanner {
  banner_display : string;          (* style.display *)
  banner_innerHTML : option banner_content
}.

Record todo_item : Type := mkTodoItem {
  item_className : string;
  item_icon : string;
  item_content : string;
  item_priority : string
}.

(** [innerHTML] of the todo panel. *)
Record panel_content : Type := mkPanelContent {
  todo_count_completed : Q;
  todo_count_total : Q;
  todo_fill_percent : Q;
  todo_in_progress : option Q;
  todo_list : list todo_item
}.

Record panel : Type := mkPanel {
  panel_display : string;           (* style.display *)
  panel_innerHTML : option panel_content
}.

Record toast : Type := mkToast {
  toast_className : string;
  toast_textContent : string
}.

Record document : Type := mkDocument {
  pipeline_title : string;
  pipeline_status : status_badge;
  pipeline_actions : list button;
  pipeline_view : view;
  budget_bar_el : budget_bar;
  execution_list : list_view;
  workflow_count : string;
  running_count : string;
  body_loading : bool;
  approval_banner : option banner;
  todo_panel : option panel;
  toast_container : option (list toast)
}.

(** *** The browser around the script *)

(** An armed [setInterval(updateBanner, 1000)]: the handle and the
    variables captured by the [updateBanner] closure. *)
Record countdown : Type := mkCountdown {
  cd_handle : positive;
  cd_message : string;
  cd_timeoutSeconds : Q
}.

(** An armed [setTimeout(() => this._connectWebSocket(executionId), delay)]. *)
Record reconnect : Type := mkReconnect {
  rc_handle : positive;
  rc_delay : Z;
  rc_executionId : string
}.

Inductive readyState : Type := CONNECTING | OPEN | CLOSING | CLOSED.

(** A [WebSocket] made by [_connectWebSocket(executionId)]: its [onopen]
    and [onmessage] handlers stay installed, [onclose] may be removed. *)
Record socket : Type := mkSocket {
  sock_handle : positive;
  sock_url : string;
  sock_executionId : string;
  sock_readyState : readyState;
  sock_onclose : bool
}.

(** [JSON.stringify({ type: ..., approved: ... })] as handed to [ws.send]. *)
Record client_message : Type := mkClientMessage {
  msg_type : string;
  msg_approved : bool
}.

Record request : Type := mkRequest {
  req_method : string;
  req_url : string
}.

(** An [async] method suspended at its [await fetch(...)]. *)
Inductive continuation : Type :=
| AwaitExecutionDetail (executionId : string)
| AwaitApprovalPost.

Record notification : Type := mkNotification {
  notification_title : string;
  notification_body : string
}.

Record browser : Type := mkBrowser {
  location_protocol : string;
  location_host : string;
  notification_supported : bool;
  notification_granted : bool;
  document_hasFocus : bool;
  next_handle : positive;
  intervals : list countdown;
  timeouts : list reconnect;
  sockets : list socket;
  sent : list (positive * client_message);
  requests : list request;
  suspended : list continuation;
  alerts : list string;
  notifications : list notification
}.

Record state : Type := mkState {
  app : workflowApp;
  doc : document;
  env : browser
}.

(** *** Field updates *)

Definition eta_app (r : workflowApp) : workflowApp :=
  mkApp (executions r) (selectedExecution r) (ws r) (currentFilter r)
    (pendingApproval r) (approvalCountdownInterval r) (isLoading r)
    (wsReconnectAttempts r) (wsReconnectTimeout r) (maxWsReconnectAttempts r)
    (todos r) (todoProgress r).

Definition eta_document (r : document) : document :=
  mkDocument (pipeline_title r) (pipeline_status r) (pipeline_actions r)
    (pipeline_view r) (budget_bar_el r) (execution_list r) (workflow_count r)
    (running_count r) (body_loading r) (approval_banner r) (todo_panel r)
    (toast_container r).

Definition eta_browser (r : browser) : browser :=
  mkBrowser (location_protocol r) (location_host r) (notification_supported r)
    (notification_granted r) (document_hasFocus r) (next_handle r)
    (intervals r) (timeouts r) (sockets r) (sent r) (requests r)
    (suspended r) (alerts r) (notifications r).

(** [with_field eta proj] builds [fun v r => r with proj := v] out of the
    eta expansion of the record. *)
Ltac with_field eta proj :=
  let v := fresh "v" in
  let r := fresh "r" in
  intros v r;
  let body := eval cbv beta delta [eta] in (eta r) in
  match eval pattern (proj r) in body with
  | ?f _ => let t := eval cbv beta in (f v) in exact t
  end.

Definition set_executions : list execution -> workflowApp -> workflowApp :=
  ltac:(with_field eta_app executions).
Definition set_selectedExecution : option execution -> workflowApp -> workflowApp :=
  ltac:(with_field eta_app selectedExecution).
Definition set_ws : option positive -> workflowApp -> workflowApp :=
  ltac:(with_field eta_app ws).
Definition set_pendingApproval : option approval -> workflowApp -> workflowApp :=
  ltac:(with_field eta_app pendingApproval).
Definition set_approvalCountdownInterval : option positive -> workflowApp -> workflowApp :=
  ltac:(with_field eta_app approvalCountdownInterval).
Definition set_isLoading : bool -> workflowApp -> workflowApp :=
  ltac:(with_field eta_app isLoading).
Definition set_wsReconnectAttempts : nat -> workflowApp -> workflowApp :=
  ltac:(with_field eta_app wsReconnectAttempts).
Definition set_wsReconnectTimeout : option positive -> workflowApp -> workflowApp :=
  ltac:(with_field eta_app wsReconnectTimeout).
Definition set_todos : list todo -> workflowApp -> workflowApp :=
  ltac:(with_field eta_app todos).
Definition set_todoProgress : option progress -> workflowApp -> workflowApp :=
  ltac:(with_field eta_app todoProgress).

Definition set_pipeline_title : string -> document -> document :=
  ltac:(with_field eta_document pipeline_title).
Definition set_pipeline_status : status_badge -> document -> document :=
  ltac:(with_field eta_document pipeline_status).
Definition set_pipeline_actions : list button -> document -> document :=
  ltac:(with_field eta_document pipeline_actions).
Definition set_pipeline_view : view -> document -> document :=
  ltac:(with_field eta_document pipeline_view).
Definition set_budget_bar_el : budget_bar -> document -> document :=
  ltac:(with_field eta_document budget_bar_el).
Definition set_execution_list : list_view -> document -> document :=
  ltac:(with_field eta_document execution_list).
Definition set_workflow_count : string -> document -> document :=
  ltac:(with_field eta_document workflow_count).
Definition set_running_count : string -> document -> document :=
  ltac:(with_field eta_document running_count).
Definition set_body_loading : bool -> document -> document :=
  ltac:(with_field eta_document body_loading).
Definition set_approval_banner : option banner -> document -> document :=
  ltac:(with_field eta_document approval_banner).
Definition set_todo_panel : option panel -> document -> document :=
  ltac:(with_field eta_document todo_panel).
Definition set_toast_container : option (list toast) -> document -> document :=
  ltac:(with_field eta_document toast_container).

Definition set_next_handle : positive -> browser -> browser :=
  ltac:(with_field eta_browser next_handle).
Definition set_intervals : list countdown -> browser -> browser :=
  ltac:(with_field eta_browser intervals).
Definition set_timeouts : list reconnect -> browser -> browser :=
  ltac:(with_field eta_browser timeouts).
Definition set_sockets : list socket -> browser -> browser :=
  ltac:(with_field eta_browser sockets).
Definition set_sent : list (positive * client_message) -> browser -> browser :=
  ltac:(with_field eta_browser sent).
Definition set_requests : list request -> browser -> browser :=
  ltac:(with_field eta_browser requests).
Definition set_suspended : list continuation -> browser -> browser :=
  ltac:(with_field eta_browser suspended).
Definition set_alerts : list string -> browser -> browser :=
  ltac:(with_field eta_browser alerts).
Definition set_notifications : list notification -> browser -> browser :=
  ltac:(with_field eta_browser notifications).

Definition on_app (f : workflowApp -> workflowApp) (st : state) : state :=
  {| app := f (app st); doc := doc st; env := env st |}.

Definition on_doc (f : document -> document) (st : state) : state :=
  {| app := app st; doc := f (doc st); env := env st |}.

Definition on_env (f : browser -> browser) (st : state) : state :=
  {| app := app st; doc := doc st; env := f (env st) |}.

(** ** Helpers of the handlers *)

(** [x || fallback] on an optional string: missing and empty are falsy. *)
Definition or_string (x : option string) (fallback : string) : string :=
  match x with
  | Some EmptyString | None => fallback
  | Some s => s
  end.

(** [clearInterval(handle)]; a [null] handle clears nothing. *)
Definition clearInterval (h : option positive) (st : state) : state :=
  match h with
  | None => st
  | Some h =>
      on_env (fun b =>
        set_intervals
          (filter (fun c => negb (Pos.eqb (cd_handle c) h)) (intervals b)) b) st
  end.

(** [clearTimeout(handle)] *)
Definition clearTimeout (h : positive) (st : state) : state :=
  on_env (fun b =>
    set_timeouts
      (filter (fun t => negb (Pos.eqb (rc_handle t) h)) (timeouts b)) b) st.

(** [showToast(message, type)]: the toast is appended to the container,
    which is created on first use.  (The timers that fade the toast in and
    out again are not part of the model.) *)
Definition showToast (message type : string) (st : state) : state :=
  on_doc (fun d =>
    let container :=
      match toast_container d with
      | Some ts => ts
      | None => []
      end in
    set_toast_container
      (Some (container ++ [mkToast ("toast toast-" ++ type) message])%list) d) st.

(** [setLoading(loading)] *)
Definition setLoading (loading : bool) (st : state) : state :=
  on_doc (set_body_loading loading) (on_app (set_isLoading loading) st).

Definition set_banner_display (v : string) (b : banner) : banner :=
  {| banner_display := v; banner_innerHTML := banner_innerHTML b |}.

Definition set_banner_innerHTML (v : banner_content) (b : banner) : banner :=
  {| banner_display := banner_display b; banner_innerHTML := Some v |}.

(** An assignment to a property of the banner element. *)
Definition on_banner (f : banner -> banner) (st : state) : state :=
  on_doc (fun d => set_approval_banner (option_map f (approval_banner d)) d) st.

(** ** The approval banner *)

(** [hideApprovalBanner()] *)
Definition hideApprovalBanner (st : state) : state :=
  let st := on_app (set_pendingApproval None) st in
  let st :=
    match approvalCountdownInterval (app st) with
    | Some h =>
        let st := clearInterval (Some h) st in
        on_app (set_approvalCountdownInterval None) st
    | None => st
    end in
  match approval_banner (doc st) with
  | Some _ => on_banner (set_banner_display "none") st
  | None => st
  end.

(** [a % b] for [a >= 0] and [b > 0]. *)
Definition Qrem (a b : Q) : Q := a - b * inject_Z (Qfloor (a / b)).

(** The seconds left on the countdown: [Math.max(0, timeoutSeconds - elapsed)]
    with [elapsed = (Date.now() - startedAt) / 1000]. *)
Definition remaining_seconds (timeoutSeconds : Q) (startedAt now : Z) : Q :=
  let elapsed := inject_Z (now - startedAt) / 1000 in
  Qmax 0 (timeoutSeconds - elapsed).

(** The text of the [approval-timer] span. *)
Definition timeDisplay (remaining : Q) : string :=
  let mins := Qfloor (remaining / 60) in
  let secs := Qfloor (Qrem remaining 60) in
  if Qgtb remaining 0
  then digits mins ++ ":" ++ padStart0 2 (digits secs)
  else "Expired".

Definition approval_buttons : list button :=
  [ mkButton "btn btn-primary" (respondToApproval_call true) "Approve";
    mkButton "btn btn-danger" (respondToApproval_call false) "Reject" ].

(** The [updateBanner] closure made by [showApprovalBanner(message,
    timeoutSeconds)], run at clock reading [now].  [None] is the
    [TypeError] of reading [this.pendingApproval.startedAt] off [null],
    raised before anything is written. *)
Definition updateBanner (message : string) (timeoutSeconds : Q) (now : Z)
    (st : state) : option state :=
  match pendingApproval (app st) with
  | None => None
  | Some pending =>
      let remaining := remaining_seconds timeoutSeconds (startedAt pending) now in
      let st :=
        on_banner
          (set_banner_innerHTML
             (mkBannerContent (timeDisplay remaining) (escapeHtml message)
                approval_buttons)) st in
      if Qle_bool remaining 0 then
        let st := showToast "Approval request timed out" "warning" st in
        let st := clearInterval (approvalCountdownInterval (app st)) st in
        Some (hideApprovalBanner st)
      else Some st
  end.

(** [showApprovalBanner(message, timeoutSeconds = 300)], entered at clock
    reading [now]. *)
Definition showApprovalBanner (message : string) (timeout : option Q)
    (now : Z) (st : state) : state :=
  let timeoutSeconds :=
    match timeout with
    | Some t => t
    | None => 300
    end in
  let st :=
    on_app (set_pendingApproval (Some (mkApproval message timeoutSeconds now))) st in
  let st :=
    match approvalCountdownInterval (app st) with
    | Some h => clearInterval (Some h) st
    | None => st
    end in
  let st :=
    match approval_banner (doc st) with
    | Some _ => st
    | None => on_doc (set_approval_banner (Some (mkBanner "" None))) st
    end in
  match updateBanner message timeoutSeconds now st with
  | None => st
  | Some st =>
      let h := next_handle (env st) in
      let st :=
        on_env (fun b =>
          set_next_handle (Pos.succ h)
            (set_intervals
               (intervals b ++ [mkCountdown h message timeoutSeconds])%list b)) st in
      let st := on_app (set_approvalCountdownInterval (Some h)) st in
      on_banner (set_banner_display "flex") st
  end.

(** The browser runs the callback of interval [h] at clock reading [now].
    A cleared interval does not fire; an exception thrown by the callback
    is reported and leaves the interval armed. *)
Definition interval_fired (h : positive) (now : Z) (st : state) : state :=
  match find (fun c => Pos.eqb (cd_handle c) h) (intervals (env st)) with
  | None => st
  | Some c =>
      match updateBanner (cd_message c) (cd_timeoutSeconds c) now st with
      | Some st' => st'
      | None => st
      end
  end.


(** The banner is absent or hidden. *)
Definition banner_hidden (st : state) : Prop :=
  match approval_banner (doc st) with
  | Some b => banner_display b = "none"
  | None => True
  end.

(** ** Rendering the selected execution *)

(** The [pendingPhases] that [renderPipeline] derives from the template when
    no phase has run yet; [i] is the index of [p] in the template. *)
Definition pending_phase (i : nat) (p : template_phase) : phase :=
  {| phase_key := tp_id p;
     phase_id := tp_id p;
     phase_name := tp_name p;
     phase_role := tp_role p;
     phase_status := "pending";
     provider_used := tp_provider_type p;
     model_used := tp_model_name p;
     order := Some match tp_order p with
                   | Some 0%Z | None => Z.of_nat i
                   | Some o => o
                   end;
     parallel_with := Undefined;
     duration_seconds := None |}.

Fixpoint mapi_from {A B : Type} (f : nat -> A -> B) (i : nat) (l : list A)
  : list B :=
  match l with
  | [] => []
  | x :: l' => f i x :: mapi_from f (S i) l'
  end.

(** [renderPipeline(execution, artifacts, templatePhases)]; the artifacts
    are not used by the function. *)
Definition renderPipeline (execution : execution)
    (templatePhases : option (list template_phase)) (d : document) : document :=
  let d :=
    set_pipeline_title
      (truncate (or_string (task_description execution) "Workflow") 50) d in
  let d :=
    set_pipeline_status
      (mkBadge ("pipeline-status status-" ++ exec_status execution)
         (exec_status execution)) d in
  let d := set_pipeline_actions (renderActions execution) d in
  let hasExecutedPhases :=
    match phase_executions execution with
    | Some (_ :: _) => true
    | _ => false
    end in
  match hasExecutedPhases, templatePhases, phase_executions execution with
  | false, Some (p :: ps), _ =>
      let pendingPhases := mapi_from pending_phase 0 (p :: ps) in
      set_pipeline_view (PipelineContainer (groupPhases pendingPhases)) d
  | false, _, _ => set_pipeline_view NoPhasesPlaceholder d
  | true, _, Some phases =>
      set_pipeline_view (PipelineContainer (groupPhases phases)) d
  | true, _, None => d
  end.

(** [e => e.status === 'running' || e.status === 'pending'] and the like. *)
Definition filterExecutionList (currentFilter : string) (l : list execution)
  : list execution :=
  if String.eqb currentFilter "all" then l
  else if String.eqb currentFilter "running" then
    filter (fun e => status_is e "running" || status_is e "pending") l
  else if String.eqb currentFilter "completed" then
    filter (fun e => status_is e "completed" || status_is e "failed") l
  else l.

Definition is_selected (a : workflowApp) (id : string) : bool :=
  match selectedExecution a with
  | Some e => String.eqb (exec_id e) id
  | None => false
  end.

Definition execution_card_of (a : workflowApp) (e : execution) : execution_card :=
  let safeDesc := escapeHtml (or_string (task_description e) "Workflow") in
  let displayStatus :=
    match selectedExecution a with
    | Some sel =>
        if String.eqb (exec_id sel) (exec_id e)
        then or_string (Some (exec_status sel)) (exec_status e)
        else exec_status e
    | None => exec_status e
    end in
  {| card_active := is_selected a (exec_id e);
     card_execution_id := escapeHtml (exec_id e);
     card_title_attr := safeDesc;
     card_title := truncate safeDesc 25;
     card_status := displayStatus |}.

(** [renderExecutionList()] *)
Definition renderExecutionList (st : state) : state :=
  let filtered := filterExecutionList (currentFilter (app st)) (executions (app st)) in
  match filtered with
  | [] => on_doc (set_execution_list EmptyState) st
  | _ => on_doc (set_execution_list (Cards (map (execution_card_of (app st)) filtered))) st
  end.

(** [updateStats()] *)
Definition updateStats (st : state) : state :=
  let total := List.length (executions (app st)) in
  let running :=
    List.length (filter (fun e => status_is e "running") (executions (app st))) in
  let st :=
    on_doc (set_workflow_count
              (digits (Z.of_nat total) ++ " workflow"
               ++ (if Nat.eqb total 1 then "" else "s"))) st in
  on_doc (set_running_count (digits (Z.of_nat running) ++ " running")) st.

(** ** The todo panel *)

(** [getTodoStatusIcon(status)] *)
Definition getTodoStatusIcon (status : string) : string :=
  if String.eqb status "pending" then "○"
  else if String.eqb status "in_progress" then "◐"
  else if String.eqb status "completed" then "●"
  else if String.eqb status "cancelled" then "◌"
  else "○".

Definition todo_item_of (t : todo) : todo_item :=
  {| item_className :=
       "todo-item todo-" ++ todo_status t ++ " priority-" ++ todo_priority t;
     item_icon := getTodoStatusIcon (todo_status t);
     item_content := escapeHtml (todo_content t);
     item_priority := todo_priority t |}.

(** [x || fallback] on an optional number: missing and [0] are falsy. *)
Definition or_number (x : option Q) (fallback : Q) : Q :=
  match x with
  | Some q => if Qeq_bool q 0 then fallback else q
  | None => fallback
  end.

(** A field of [this.todoProgress || {}]. *)
Definition progress_field (f : progress -> option Q) (a : workflowApp)
  : option Q :=
  match todoProgress a with
  | Some p => f p
  | None => None
  end.

(** The markup written into the panel when there are todos. *)
Definition panel_content_of (a : workflowApp) : panel_content :=
  let percent := or_number (progress_field progress_percent a) 0 in
  let completed := or_number (progress_field progress_completed a) 0 in
  let total :=
    or_number (progress_field progress_total a)
      (inject_Z (Z.of_nat (List.length (todos a)))) in
  let inProgress := or_number (progress_field progress_in_progress a) 0 in
  {| todo_count_completed := completed;
     todo_count_total := total;
     todo_fill_percent := percent;
     todo_in_progress := if Qgtb inProgress 0 then Some inProgress else None;
     todo_list := map todo_item_of (todos a) |}.

(** [renderTodos()].  The panel is created in front of [pipeline-view] when
    it does not exist yet. *)
Definition renderTodos (st : state) : state :=
  let container :=
    match todo_panel (doc st) with
    | Some p => p
    | None => mkPanel "" None
    end in
  match todos (app st) with
  | [] =>
      on_doc (set_todo_panel
                (Some {| panel_display := "none";
                         panel_innerHTML := panel_innerHTML container |})) st
  | _ =>
      on_doc (set_todo_panel
                (Some {| panel_display := "block";
                         panel_innerHTML := Some (panel_content_of (app st)) |})) st
  end.

(** ** The live-update channel *)

Definition find_socket (h : positive) (b : browser) : option socket :=
  find (fun s => Pos.eqb (sock_handle s) h) (sockets b).

Definition on_socket (h : positive) (f : socket -> socket) (st : state) : state :=
  on_env (fun b =>
    set_sockets
      (map (fun s => if Pos.eqb (sock_handle s) h then f s else s) (sockets b)) b) st.

Definition set_sock_readyState (v : readyState) (s : socket) : socket :=
  {| sock_handle := sock_handle s; sock_url := sock_url s;
     sock_executionId := sock_executionId s; sock_readyState := v;
     sock_onclose := sock_onclose s |}.

Definition set_sock_onclose (v : bool) (s : socket) : socket :=
  {| sock_handle := sock_handle s; sock_url := sock_url s;
     sock_executionId := sock_executionId s;
     sock_readyState := sock_readyState s; sock_onclose := v |}.

(** [socket.close()]: an open or connecting socket starts closing. *)
Definition close (s : socket) : socket :=
  match sock_readyState s with
  | CONNECTING | OPEN => set_sock_readyState CLOSING s
  | CLOSING | CLOSED => s
  end.

(** The address of the channel of one execution. *)
Definition channel_url (b : browser) (executionId : string) : string :=
  let protocol :=
    if String.eqb (location_protocol b) "https:" then "wss:" else "ws:" in
  protocol ++ "//" ++ location_host b ++ "/api/workflow/ws/" ++ executionId.

(** [_connectWebSocket(executionId)]: a new socket with its four handlers;
    nothing is written to it. *)
Definition _connectWebSocket (executionId : string) (st : state) : state :=
  let h := next_handle (env st) in
  let s :=
    {| sock_handle := h; sock_url := channel_url (env st) executionId;
       sock_executionId := executionId; sock_readyState := CONNECTING;
       sock_onclose := true |} in
  let st :=
    on_env (fun b =>
      set_next_handle (Pos.succ h) (set_sockets (sockets b ++ [s])%list b)) st in
  on_app (set_ws (Some h)) st.

(** [connectWebSocket(executionId)] *)
Definition connectWebSocket (executionId : string) (st : state) : state :=
  let st :=
    match wsReconnectTimeout (app st) with
    | Some t => on_app (set_wsReconnectTimeout None) (clearTimeout t st)
    | None => st
    end in
  let st :=
    match ws (app st) with
    | Some h => on_socket h close (on_socket h (set_sock_onclose false) st)
    | None => st
    end in
  let st := on_app (set_wsReconnectAttempts 0) st in
  _connectWebSocket executionId st.

(** [this.ws.onopen] *)
Definition ws_onopen (st : state) : state :=
  on_app (set_wsReconnectAttempts 0) st.

(** The delay before reconnect attempt number [attempt]:
    [Math.min(1000 * Math.pow(2, attempt), 30000)]. *)
Definition reconnect_delay (attempt : nat) : Z :=
  Z.min (1000 * 2 ^ Z.of_nat attempt) 30000.

(** [this.ws.onclose] of the socket made by [_connectWebSocket(executionId)]. *)
Definition ws_onclose (executionId : string) (st : state) : state :=
  let st := hideApprovalBanner st in
  if is_selected (app st) executionId
     && (wsReconnectAttempts (app st) <? maxWsReconnectAttempts (app st))%nat
  then
    let st :=
      on_app (fun a => set_wsReconnectAttempts (S (wsReconnectAttempts a)) a) st in
    let delay := reconnect_delay (wsReconnectAttempts (app st)) in
    let h := next_handle (env st) in
    let st :=
      on_env (fun b =>
        set_next_handle (Pos.succ h)
          (set_timeouts (timeouts b ++ [mkReconnect h delay executionId])%list b)) st in
    on_app (set_wsReconnectTimeout (Some h)) st
  else st.

(** The browser runs the callback of timeout [h], once. *)
Definition timeout_fired (h : positive) (st : state) : state :=
  match find (fun t => Pos.eqb (rc_handle t) h) (timeouts (env st)) with
  | None => st
  | Some t => _connectWebSocket (rc_executionId t) (clearTimeout h st)
  end.

(** ** [selectExecution] *)

(** The body of the reply to [GET /api/workflow/executions/{id}]. *)
Record execution_detail : Type := mkDetail {
  detail_execution : execution;
  detail_template_phases : option (list template_phase);
  detail_budget : option budget
}.

(** How an awaited [fetch] ends: the promise rejects, or a response arrives
    with its [ok] flag and, when it parses, its body. *)
Inductive fetch_outcome : Type :=
| Rejected
| Responded (ok : bool) (body : option execution_detail).

(** [selectExecution(executionId)] up to its [await fetch(...)]. *)
Definition selectExecution (executionId : string) (st : state) : state :=
  let st := setLoading true st in
  on_env (fun b =>
    set_suspended (suspended b ++ [AwaitExecutionDetail executionId])%list
      (set_requests
         (requests b
          ++ [mkRequest "GET" ("/api/workflow/executions/" ++ executionId)])%list
         b)) st.

(** [this.executions[idx] = { ...this.executions[idx], status }] at the
    first index whose execution has the given id. *)
Fixpoint set_status_of (id status : string) (l : list execution)
  : list execution :=
  match l with
  | [] => []
  | e :: l' =>
      if String.eqb (exec_id e) id
      then {| exec_id := exec_id e; exec_status := status;
              task_description := task_description e;
              phase_executions := phase_executions e |} :: l'
      else e :: set_status_of id status l'
  end.

(** [selectExecution(executionId)] from the reply onwards. *)
Definition selectExecution_resume (executionId : string)
    (reply : fetch_outcome) (st : state) : state :=
  match reply with
  | Responded true (Some data) =>
      let st := on_app (set_selectedExecution (Some (detail_execution data))) st in
      let st :=
        on_app (fun a =>
          set_executions
            (set_status_of executionId (exec_status (detail_execution data))
               (executions a)) a) st in
      let st := renderExecutionList st in
      let st :=
        on_doc (renderPipeline (detail_execution data)
                  (detail_template_phases data)) st in
      let st :=
        on_doc (fun d =>
          set_budget_bar_el (renderBudget (detail_budget data) (budget_bar_el d)) d)
          st in
      let st := connectWebSocket executionId st in
      setLoading false st
  | _ =>
      let st := showToast "Failed to load execution details" "error" st in
      setLoading false st
  end.

(** ** [handleWebSocketMessage] *)

Record approval_request : Type := mkApprovalRequest {
  request_message : string;
  request_timeout_seconds : option Q
}.

(** The parsed event: its [type] and the properties some handler reads. *)
Record ws_event : Type := mkEvent {
  ev_type : string;
  ev_status : option string;
  ev_execution : option execution;
  ev_template_phases : option (list template_phase);
  ev_pending_approval : option approval_request;
  ev_todos : option (list todo);
  ev_todo_progress : option progress;
  ev_progress : option progress;
  ev_message : string;
  ev_timeout_seconds : option Q;
  ev_budget : option budget
}.

(** [showBrowserNotification(title, body)] *)
Definition showBrowserNotification (title body : string) (st : state) : state :=
  if negb (notification_supported (env st)) then st
  else if negb (notification_granted (env st)) then st
  else if document_hasFocus (env st) then st
  else
    on_env (fun b =>
      set_notifications
        (notifications b ++ [mkNotification title (String.substring 0 100 body)])%list
        b) st.

Definition type_is (data : ws_event) (t : string) : bool :=
  String.eqb (ev_type data) t.

(** [handleWebSocketMessage(data)], at clock reading [now].  The branches
    test [data.type] against different constants, so at most one of them
    runs.  Reading [this.selectedExecution.id] off [null] throws, and so
    does [renderPipeline] on a missing execution: the handler stops there
    with what it had written. *)
Definition handleWebSocketMessage (data : ws_event) (now : Z) (st : state)
  : state :=
  let st :=
    if type_is data "phase_update" || type_is data "execution_update"
       || type_is data "status_update" || type_is data "phase_complete"
    then
      match selectedExecution (app st) with
      | None => st
      | Some selected =>
          let st := selectExecution (exec_id selected) st in
          match type_is data "status_update", ev_status data with
          | true, Some (String c s) =>
              if existsb (fun e => String.eqb (exec_id e) (exec_id selected))
                   (executions (app st))
              then
                let st :=
                  on_app (fun a =>
                    set_executions
                      (set_status_of (exec_id selected) (String c s)
                         (executions a)) a) st in
                let st := renderExecutionList st in
                updateStats st
              else st
          | _, _ => st
          end
      end
    else st in
  let st :=
    if type_is data "init" then
      match ev_execution data with
      | None => st
      | Some execution =>
          let st :=
            on_doc (renderPipeline execution (ev_template_phases data)) st in
          let st :=
            match ev_pending_approval data with
            | Some pending =>
                showApprovalBanner (request_message pending)
                  (request_timeout_seconds pending) now st
            | None => st
            end in
          match ev_todos data with
          | Some l =>
              let st := on_app (set_todos l) st in
              let st := on_app (set_todoProgress (ev_todo_progress data)) st in
              renderTodos st
          | None => st
          end
      end
    else st in
  let st :=
    if type_is data "approval_needed" then
      let st :=
        showApprovalBanner (ev_message data) (ev_timeout_seconds data) now st in
      showBrowserNotification "Approval Required" (ev_message data) st
    else st in
  let st :=
    if type_is data "approval_resolved" then
      let st := hideApprovalBanner st in
      match selectedExecution (app st) with
      | None => st
      | Some selected => selectExecution (exec_id selected) st
      end
    else st in
  let st :=
    match type_is data "budget_update", ev_budget data with
    | true, Some b =>
        on_doc (fun d =>
          set_budget_bar_el (renderBudget (Some b) (budget_bar_el d)) d) st
    | _, _ => st
    end in
  let st :=
    if type_is data "todo_update" then
      let st :=
        on_app (set_todos match ev_todos data with
                          | Some l => l
                          | None => []
                          end) st in
      let st := on_app (set_todoProgress (ev_progress data)) st in
      renderTodos st
    else st in
  st.

(** ** [respondToApproval] *)

(** [this.ws && this.ws.readyState === WebSocket.OPEN] *)
Definition open_socket (st : state) : option positive :=
  match ws (app st) with
  | None => None
  | Some h =>
      match find_socket h (env st) with
      | Some s =>
          match sock_readyState s with
          | OPEN => Some h
          | _ => None
          end
      | None => None
      end
  end.

(** [socket.send(JSON.stringify(message))] *)
Definition send (h : positive) (m : client_message) (st : state) : state :=
  on_env (fun b => set_sent (sent b ++ [(h, m)])%list b) st.

(** [respondToApproval(approved)] up to its [await fetch(...)], if it gets
    there. *)
Definition respondToApproval (approved : bool) (st : state) : state :=
  match selectedExecution (app st) with
  | None => st
  | Some selected =>
      match open_socket st with
      | Some h =>
          let st := send h (mkClientMessage "approve" approved) st in
          hideApprovalBanner st
      | None =>
          let endpoint := if approved then "approve" else "reject" in
          on_env (fun b =>
            set_suspended (suspended b ++ [AwaitApprovalPost])%list
              (set_requests
                 (requests b
                  ++ [mkRequest "POST"
                        ("/api/workflow/executions/" ++ exec_id selected
                         ++ "/" ++ endpoint)])%list b)) st
      end
  end.

(** [respondToApproval(approved)] from the end of the request onwards: any
    response hides the banner, a rejected promise is reported and returns. *)
Definition respondToApproval_resume (reply : fetch_outcome) (st : state)
  : state :=
  match reply with
  | Rejected =>
      on_env (fun b =>
        set_alerts (alerts b ++ ["Failed to respond to approval request"])%list b)
        st
  | Responded _ _ => hideApprovalBanner st
  end.

(** ** Turns of the event loop *)

Inductive event : Type :=
| SocketOpened (h : positive)
| SocketMessage (h : positive) (data : ws_event) (now : Z)
| SocketClosed (h : positive)
| IntervalFired (h : positive) (now : Z)
| TimeoutFired (h : positive)
| ClickExecution (executionId : string)
| ClickApproval (approved : bool)
| FetchSettled (k : nat) (reply : fetch_outcome).

Fixpoint remove_nth {A : Type} (k : nat) (l : list A) : list A :=
  match k, l with
  | _, [] => []
  | O, _ :: l' => l'
  | S k', x :: l' => x :: remove_nth k' l'
  end.

(** One turn.  A socket opens out of [CONNECTING], delivers messages until
    it is [CLOSED], and closes once; [FetchSettled k] resumes the [k]-th
    suspended call.  An event that the browser cannot raise in the current
    state changes nothing. *)
Definition step (ev : event) (st : state) : state :=
  match ev with
  | SocketOpened h =>
      match find_socket h (env st) with
      | Some s =>
          match sock_readyState s with
          | CONNECTING => ws_onopen (on_socket h (set_sock_readyState OPEN) st)
          | _ => st
          end
      | None => st
      end
  | SocketMessage h data now =>
      match find_socket h (env st) with
      | Some s =>
          match sock_readyState s with
          | OPEN | CLOSING => handleWebSocketMessage data now st
          | _ => st
          end
      | None => st
      end
  | SocketClosed h =>
      match find_socket h (env st) with
      | Some s =>
          match sock_readyState s with
          | CLOSED => st
          | _ =>
              let st := on_socket h (set_sock_readyState CLOSED) st in
              if sock_onclose s then ws_onclose (sock_executionId s) st else st
          end
      | None => st
      end
  | IntervalFired h now => interval_fired h now st
  | TimeoutFired h => timeout_fired h st
  | ClickExecution executionId => selectExecution executionId st
  | ClickApproval approved => respondToApproval approved st
  | FetchSettled k reply =>
      match nth_error (suspended (env st)) k with
      | None => st
      | Some call =>
          let st :=
            on_env (fun b => set_suspended (remove_nth k (suspended b)) b) st in
          match call with
          | AwaitExecutionDetail executionId =>
              selectExecution_resume executionId reply st
          | AwaitApprovalPost => respondToApproval_resume reply st
          end
      end
  end.

Definition run (evs : list event) (st : state) : state :=
  fold_left (fun s ev => step ev s) evs st.

(** The state of a freshly loaded page on [location], before [init()]. *)
Definition initial_state (protocol host : string) : state :=
  {| app :=
       {| executions := []; selectedExecution := None; ws := None;
          currentFilter := "all"; pendingApproval := None;
          approvalCountdownInterval := None; isLoading := false;
          wsReconnectAttempts := 0; wsReconnectTimeout := None;
          maxWsReconnectAttempts := 5; todos := []; todoProgress := None |};
     doc :=
       {| pipeline_title := ""; pipeline_status := mkBadge "" "";
          pipeline_actions := []; pipeline_view := StaticView;
          budget_bar_el := mkBudgetBar 0 [] ""; execution_list := EmptyState;
          workflow_count := ""; running_count := ""; body_loading := false;
          approval_banner := None; todo_panel := None;
          toast_container := None |};
     env :=
       {| location_protocol := protocol; location_host := host;
          notification_supported := true; notification_granted := false;
          document_hasFocus := true; next_handle := 1%positive;
          intervals := []; timeouts := []; sockets := []; sent := [];
          requests := []; suspended := []; alerts := [];
          notifications := [] |} |}.

(** ** Notions used in the statements, and sample data *)

Definition chars (s : string) : list ascii := list_ascii_of_string s.

(** Neither angle bracket. *)
Definition not_angle (c : ascii) : Prop :=
  c <> "<"%char /\ c <> ">"%char.

Definition non_terminal : list string :=
  ["pending"; "running"; "paused"; "awaiting_approval"].

Definition terminal : list string := ["completed"; "failed"; "cancelled"].

(** A phase with the given id, order index and [parallel_with]. *)
Definition phase_of (id : string) (index : Z) (alongside : js_string)
  : phase :=
  {| phase_key := JStr id; phase_id := JStr id; phase_name := JStr id;
     phase_role := Null; phase_status := "pending";
     provider_used := Null; model_used := Null; order := Some index;
     parallel_with := alongside; duration_seconds := None |}.

Definition plan : phase := phase_of "plan" 0 Null.
Definition build : phase := phase_of "build" 1 Null.
Definition review : phase := phase_of "review" 2 (JStr "plan").

Definition lint : phase := phase_of "lint" 0 (JStr "test").
Definition test : phase := phase_of "test" 1 Null.

(** An event of the given type that carries nothing else. *)
Definition bare_event (type : string) : ws_event :=
  {| ev_type := type; ev_status := None; ev_execution := None;
     ev_template_phases := None; ev_pending_approval := None;
     ev_todos := None; ev_todo_progress := None; ev_progress := None;
     ev_message := ""; ev_timeout_seconds := None; ev_budget := None |}.

Definition two_todos : list todo :=
  [mkTodo "write tests" "high" "in_progress"; mkTodo "update docs" "low" "pending"].

(** The default of the parameter: [timeoutSeconds = 300]. *)
Definition timeout_of (timeout : option Q) : Q :=
  match timeout with
  | Some t => t
  | None => 300
  end.

(** What the banner reads when it is opened. *)
Definition opening_content (message : string) (timeout : option Q) (now : Z)
  : banner_content :=
  mkBannerContent (timeDisplay (remaining_seconds (timeout_of timeout) now now))
    (escapeHtml message) approval_buttons.

Definition ticks (l : list (positive * Z)) (st : state) : state :=
  fold_left (fun s tick => interval_fired (fst tick) (snd tick) s) l st.

(** The four parts of the page that [renderPipeline] writes. *)
Definition same_pipeline (d1 d2 : document) : Prop :=
  pipeline_title d1 = pipeline_title d2
  /\ pipeline_status d1 = pipeline_status d2
  /\ pipeline_actions d1 = pipeline_actions d2
  /\ pipeline_view d1 = pipeline_view d2.

(** An execution [A] asks for approval; the user then opens execution [B],
    whose snapshot carries no approval request. *)
Definition execution_A : execution :=
  mkExecution "A" "awaiting_approval" (Some "Ship the release") None.


Definition approval_needed_A : ws_event :=
  {| ev_type := "approval_needed"; ev_status := None; ev_execution := None;
     ev_template_phases := None; ev_pending_approval := None;
     ev_todos := None; ev_todo_progress := None; ev_progress := None;
     ev_message := "Deploy to production?"; ev_timeout_seconds := Some 300;
     ev_budget := None |}.




(** The handler, one branch after the other. *)
Definition on_progress_events (data : ws_event) (st : state) : state :=
  if type_is data "phase_update" || type_is data "execution_update"
     || type_is data "status_update" || type_is data "phase_complete"
  then
    match selectedExecution (app st) with
    | None => st
    | Some selected =>
        let st := selectExecution (exec_id selected) st in
        match type_is data "status_update", ev_status data with
        | true, Some (String c s) =>
            if existsb (fun e => String.eqb (exec_id e) (exec_id selected))
                 (executions (app st))
            then
              updateStats
                (renderExecutionList
                   (on_app (fun a =>
                      set_executions
                        (set_status_of (exec_id selected) (String c s)
                           (executions a)) a) st))
            else st
        | _, _ => st
        end
    end
  else st.

Definition on_init (data : ws_event) (now : Z) (st : state) : state :=
  if type_is data "init" then
    match ev_execution data with
    | None => st
    | Some execution =>
        let st := on_doc (renderPipeline execution (ev_template_phases data)) st in
        let st :=
          match ev_pending_approval data with
          | Some pending =>
              showApprovalBanner (request_message pending)
                (request_timeout_seconds pending) now st
          | None => st
          end in
        match ev_todos data with
        | Some l =>
            renderTodos
              (on_app (set_todoProgress (ev_todo_progress data))
                 (on_app (set_todos l) st))
        | None => st
        end
    end
  else st.

Definition on_approval_needed (data : ws_event) (now : Z) (st : state) : state :=
  if type_is data "approval_needed" then
    showBrowserNotification "Approval Required" (ev_message data)
      (showApprovalBanner (ev_message data) (ev_timeout_seconds data) now st)
  else st.

Definition on_approval_resolved (data : ws_event) (st : state) : state :=
  if type_is data "approval_resolved" then
    let st := hideApprovalBanner st in
    match selectedExecution (app st) with
    | None => st
    | Some selected => selectExecution (exec_id selected) st
    end
  else st.

Definition on_budget_update (data : ws_event) (st : state) : state :=
  match type_is data "budget_update", ev_budget data with
  | true, Some b =>
      on_doc (fun d =>
        set_budget_bar_el (renderBudget (Some b) (budget_bar_el d)) d) st
  | _, _ => st
  end.

Definition on_todo_update (data : ws_event) (st : state) : state :=
  if type_is data "todo_update" then
    renderTodos
      (on_app (set_todoProgress (ev_progress data))
         (on_app (set_todos match ev_todos data with
                            | Some l => l
                            | None => []
                            end) st))
  else st.

(** The parts of the browser that only the socket code writes. *)
Definition same_wire (st' st : state) : Prop :=
  sent (env st') = sent (env st).

(** The approval of [A] is on screen when a [phase_update] makes the client
    reload [A] and reconnect; the user approves while the new socket is
    still connecting, and the request fails. *)
Definition phase_update_A : ws_event := bare_event "phase_update".

Definition approve_while_reconnecting : list event :=
  [ ClickExecution "A";
    FetchSettled 0 (Responded true (Some (mkDetail execution_A None None)));
    SocketOpened 1;
    SocketMessage 1 approval_needed_A 1000;
    SocketMessage 1 phase_update_A 2000;
    FetchSettled 0 (Responded true (Some (mkDetail execution_A None None)));
    ClickApproval true;
    FetchSettled 0 Rejected ].

(** Every handle in use was given out before [next_handle]. *)
Definition handles_below (n : positive) (b : browser) : Prop :=
  Forall (fun t => (rc_handle t < n)%positive) (timeouts b)
  /\ Forall (fun s => (sock_handle s < n)%positive) (sockets b)
  /\ Forall (fun c => (cd_handle c < n)%positive) (intervals b).

Definition handles_fresh (st : state) : Prop :=
  handles_below (next_handle (env st)) (env st).

(** Handles are given out in increasing order and the attempt limit is the
    constant 5. *)
Definition sound (st : state) : Prop :=
  handles_fresh st /\ maxWsReconnectAttempts (app st) = 5%nat.

(** The socket that [this.ws] names has its [onclose] handler installed. *)
Definition listening (st : state) : Prop :=
  forall s : socket,
    In s (sockets (env st)) ->
    ws (app st) = Some (sock_handle s) ->
    sock_onclose s = true.

(** A property of states that survives every write that leaves [this.ws],
    the attempt limit, the sockets and the handles in use alone, and every
    arming and clearing of an interval or arming of a timeout. *)
Record stable (P : state -> Prop) : Prop := mkStable {
  stable_app :
    forall (f : workflowApp -> workflowApp) (st : state),
      (forall a, maxWsReconnectAttempts (f a) = maxWsReconnectAttempts a
                 /\ ws (f a) = ws a) ->
      P st -> P (on_app f st);
  stable_doc :
    forall (f : document -> document) (st : state), P st -> P (on_doc f st);
  stable_env :
    forall (f : browser -> browser) (st : state),
      (forall b, next_handle (f b) = next_handle b
                 /\ timeouts (f b) = timeouts b
                 /\ sockets (f b) = sockets b
                 /\ intervals (f b) = intervals b) ->
      P st -> P (on_env f st);
  stable_clearInterval :
    forall (h : option positive) (st : state), P st -> P (clearInterval h st);
  stable_setInterval :
    forall (message : string) (timeoutSeconds : Q) (st : state),
      P st ->
      P (on_env (fun b =>
           set_next_handle (Pos.succ (next_handle (env st)))
             (set_intervals
                (intervals b
                 ++ [mkCountdown (next_handle (env st)) message timeoutSeconds])%list
                b)) st);
  stable_setTimeout :
    forall (delay : Z) (executionId : string) (st : state),
      P st ->
      P (on_env (fun b =>
           set_next_handle (Pos.succ (next_handle (env st)))
             (set_timeouts
                (timeouts b
                 ++ [mkReconnect (next_handle (env st)) delay executionId])%list
                b)) st)
}.

(** Execution [A] is selected and its channel is open. *)
Definition watching_A : state :=
  run [ ClickExecution "A";
        FetchSettled 0 (Responded true (Some (mkDetail execution_A None None)));
        SocketOpened 1 ]
    (initial_state "https:" "localhost").

(** The channel of [A] keeps failing: five reconnects are armed, after
    2, 4, 8, 16 and 30 seconds, and the sixth close arms none. *)
Definition channel_keeps_failing : list event :=
  [ SocketClosed 1; TimeoutFired 2;
    SocketClosed 3; TimeoutFired 4;
    SocketClosed 5; TimeoutFired 6;
    SocketClosed 7; TimeoutFired 8;
    SocketClosed 9; TimeoutFired 10 ].

(** ** Further notions: phases that [groupPhases] draws well *)

(** From position [i] on, the sorted list falls into a phase that nobody
    runs alongside, or a phase directly followed by exactly the phases
    that run alongside it, and so on to the end. *)
Inductive grouped (sorted : list phase) : nat -> Prop :=
| grouped_end (i : nat) :
    (List.length sorted <= i)%nat -> grouped sorted i
| grouped_single (i : nat) (ph : phase) :
    nth_error sorted i = Some ph ->
    filter (runs_alongside ph) sorted = [] ->
    grouped sorted (i + 1) ->
    grouped sorted i
| grouped_parallel (i : nat) (ph : phase) (members : list phase) :
    nth_error sorted i = Some ph ->
    members <> [] ->
    filter (runs_alongside ph) sorted = members ->
    firstn (List.length members) (skipn (i + 1) sorted) = members ->
    grouped sorted (i + List.length members + 1) ->
    grouped sorted i.

(** Ascending order index. *)
Definition by_order (a b : phase) : Prop := (order_key a <= order_key b)%Z.

(** The phases of order index [k], in the order of the list. *)
Definition of_order (k : Z) (l : list phase) : list phase :=
  filter (fun p => (order_key p =? k)%Z) l.

(** The connector follows every card but the last. *)
Fixpoint standalone_from (n : Z) (i : nat) (l : list phase)
  : list pipeline_phase :=
  match l with
  | [] => []
  | p :: l' => Standalone p (Z.of_nat i <? n - 1)%Z :: standalone_from n (S i) l'
  end.

(** Sample data: [check] runs alongside [draft], directly after it. *)
Definition draft : phase := phase_of "draft" 0 Null.
Definition check : phase := phase_of "check" 1 (JStr "draft").
Definition ship : phase := phase_of "ship" 2 Null.


(** ** Further helpers of the execution list *)

(** [String(n)] for an integer. *)
Definition int_string (n : Z) : string :=
  if (n <? 0)%Z then "-" ++ digits (- n) else digits n.

(** [Math.trunc]. *)
Definition Qtrunc (x : Q) : Z :=
  if Qgtb 0 x then (- Qfloor (- x))%Z else Qfloor x.

(** [a % b]: the remainder takes the sign of [a]. *)
Definition js_rem (a b : Q) : Q := a - b * inject_Z (Qtrunc (a / b)).

(** [formatDuration(seconds)] *)
Definition formatDuration (seconds : Q) : string :=
  let mins := Qfloor (seconds / 60) in
  let secs := Qfloor (js_rem seconds 60) in
  int_string mins ++ ":" ++ padStart0 2 (int_string secs).






(** ** The context menu of the execution list *)

(** Where the browser put the menu after [left] and [top] were first set
    ([getBoundingClientRect()]), and the size of the window. *)
Record placement : Type := mkPlacement {
  rect_right : Q;
  rect_bottom : Q;
  rect_width : Q;
  rect_height : Q;
  innerWidth : Q;
  innerHeight : Q
}.

Record context_menu : Type := mkContextMenu {
  menu_left : Q;                    (* style.left, in px *)
  menu_top : Q;                     (* style.top, in px *)
  menu_open : bool;
  cancel_item_display : string      (* style.display of the fourth item *)
}.

(** [showContextMenu(x, y, executionId)]: the menu and the new value of
    [this.contextMenuExecutionId]. *)
Definition showContextMenu (x y : Q) (executionId : string)
    (executions : list execution) (r : placement) : context_menu * string :=
  let execution :=
    find (fun e => String.eqb (exec_id e) executionId) executions in
  let display :=
    match execution with
    | Some e => if status_is e "running" then "flex" else "none"
    | None => "none"
    end in
  let left := if Qgtb (rect_right r) (innerWidth r) then x - rect_width r else x in
  let top := if Qgtb (rect_bottom r) (innerHeight r) then y - rect_height r else y in
  ({| menu_left := left; menu_top := top; menu_open := true;
      cancel_item_display := display |}, executionId).

(** The id that a button's handler is called with. *)
Definition onclick_target (c : onclick) : option string :=
  match c with
  | runExecution id | cancelExecution id | resumeExecution id
  | showArtifacts id => Some id
  | respondToApproval_call _ => None
  end.

Definition is_artifacts_control (e : execution) (b : button) : bool :=
  match btn_onclick b with
  | showArtifacts id =>
      String.eqb id (exec_id e) && String.eqb (btn_label b) "View Artifacts"
  | _ => false
  end.



(** * Properties *)

(** ** Comparisons *)

Lemma js_string_eqb_spec (a b : js_string) :
  reflect (a = b) (js_string_eqb a b).
Proof.
  destruct a as [| |s], b as [| |t]; simpl; try (constructor; congruence).
  destruct (String.eqb_spec s t); constructor; congruence.
Qed.


(** ** [escapeHtml] *)

Section EscapeHtml.

Local Open Scope char_scope.

Lemma chars_app (s t : string) : chars (s ++ t) = (chars s ++ chars t)%list.
Proof.
  induction s as [|c s IH]; simpl; [reflexivity|].
  unfold chars in *. simpl. now rewrite IH.
Qed.

(** Induction that peels one character but may look at the next. *)
Lemma string_pair_ind (P : string -> Prop) :
  P EmptyString ->
  (forall c, P (String c EmptyString)) ->
  (forall c d s, P s -> P (String d s) -> P (String c (String d s))) ->
  forall s, P s.
Proof.
  intros H0 H1 H2.
  assert (both : forall s, P s /\ forall c, P (String c s)).
  { induction s as [|d s [IHs IHc]].
    - split; [exact H0 | exact H1].
    - split; [apply IHc|]. intro c. apply H2; [exact IHs | apply IHc]. }
  intro s. apply both.
Qed.

Lemma escape_text_cons (c : ascii) (s : string) :
  Dom.escape_text (String c s) =
    if c =? "&" then ("&amp;" ++ Dom.escape_text s)%string
    else if c =? "<" then ("&lt;" ++ Dom.escape_text s)%string
    else if c =? ">" then ("&gt;" ++ Dom.escape_text s)%string
    else match s with
         | String d s' =>
             if (c =? Dom.nbsp_lead) && (d =? Dom.nbsp_trail)
             then ("&nbsp;" ++ Dom.escape_text s')%string
             else String c (Dom.escape_text s)
         | EmptyString => String c EmptyString
         end.
Proof. reflexivity. Qed.

Lemma escape_text_no_angle (s : string) :
  Forall not_angle (chars (Dom.escape_text s)).
Proof.
  assert (entity : forall e t, Forall not_angle (chars e) ->
            Forall not_angle (chars t) -> Forall not_angle (chars (e ++ t))).
  { intros e t He Ht. rewrite chars_app. apply Forall_app. now split. }
  assert (plain : forall c, (c =? "<") = false -> (c =? ">") = false ->
            not_angle c).
  { intros c Hlt Hgt. split; intro E; subst c; discriminate. }
  induction s as [| c | c d s IHs IHd] using string_pair_ind.
  - constructor.
  - rewrite escape_text_cons.
    destruct (c =? "&"); [repeat constructor; discriminate|].
    destruct (c =? "<") eqn:Hlt; [repeat constructor; discriminate|].
    destruct (c =? ">") eqn:Hgt; [repeat constructor; discriminate|].
    repeat constructor; apply plain; assumption.
  - rewrite escape_text_cons.
    destruct (c =? "&");
      [apply entity; [repeat constructor; discriminate | exact IHd]|].
    destruct (c =? "<") eqn:Hlt;
      [apply entity; [repeat constructor; discriminate | exact IHd]|].
    destruct (c =? ">") eqn:Hgt;
      [apply entity; [repeat constructor; discriminate | exact IHd]|].
    destruct ((c =? Dom.nbsp_lead) && (d =? Dom.nbsp_trail)).
    + apply entity; [repeat constructor; discriminate | exact IHs].
    + change (chars (String c (Dom.escape_text (String d s))))
        with (c :: chars (Dom.escape_text (String d s))).
      constructor; [apply plain; assumption | exact IHd].
Qed.

(** A character that is not the second byte of a no-break space cuts the
    text into two parts that are serialised independently. *)
Lemma escape_text_split (s1 : string) (c : ascii) (s2 : string) :
  (c =? Dom.nbsp_trail) = false ->
  Dom.escape_text (s1 ++ String c s2) =
    (Dom.escape_text s1 ++ Dom.escape_text (String c s2))%string.
Proof.
  intro Hc.
  induction s1 as [| a | a b s IHs IHb] using string_pair_ind.
  - reflexivity.
  - change (String a "" ++ String c s2)%string with (String a (String c s2)).
    rewrite (escape_text_cons a (String c s2)), (escape_text_cons a "").
    rewrite Hc, andb_false_r.
    destruct (a =? "&"); [reflexivity|].
    destruct (a =? "<"); [reflexivity|].
    destruct (a =? ">"); reflexivity.
  - change (String a (String b s) ++ String c s2)%string
      with (String a (String b (s ++ String c s2))).
    rewrite (escape_text_cons a (String b (s ++ String c s2))).
    rewrite (escape_text_cons a (String b s)).
    change (String b (s ++ String c s2))
      with (String b s ++ String c s2)%string.
    rewrite IHb, IHs.
    destruct (a =? "&"); [reflexivity|].
    destruct (a =? "<"); [reflexivity|].
    destruct (a =? ">"); [reflexivity|].
    destruct ((a =? Dom.nbsp_lead) && (b =? Dom.nbsp_trail)).
    + reflexivity.
    + reflexivity.
Qed.

Lemma escapeHtml_escape_text (s : string) : escapeHtml s = Dom.escape_text s.
Proof.
  unfold escapeHtml, Dom.innerHTML. destruct s as [|c s]; [reflexivity|].
  reflexivity.
Qed.

End EscapeHtml.

(** C10. [escapeHtml] replaces every [&], [<] and [>] of its input, wherever
    it stands, by [&amp;], [&lt;] and [&gt;] (the text before and after it
    being escaped in the same way), and its result holds no [<] and no [>]. *)
Theorem escapeHtml_replaces_markup (before after : string) :
  escapeHtml (before ++ "&" ++ after)
    = escapeHtml before ++ "&amp;" ++ escapeHtml after
  /\ escapeHtml (before ++ "<" ++ after)
    = escapeHtml before ++ "&lt;" ++ escapeHtml after
  /\ escapeHtml (before ++ ">" ++ after)
    = escapeHtml before ++ "&gt;" ++ escapeHtml after
  /\ Forall not_angle (chars (escapeHtml before)).
Proof.
  rewrite !escapeHtml_escape_text.
  repeat split.
  - exact (escape_text_split before "&"%char after eq_refl).
  - exact (escape_text_split before "<"%char after eq_refl).
  - exact (escape_text_split before ">"%char after eq_refl).
  - apply escape_text_no_angle.
Qed.

(** ** [renderActions] *)

Ltac by_status s :=
  destruct (String.eqb s "pending"), (String.eqb s "running"),
    (String.eqb s "paused"), (String.eqb s "awaiting_approval"),
    (String.eqb s "completed"), (String.eqb s "failed"),
    (String.eqb s "cancelled");
  cbn; rewrite ?String.eqb_refl; reflexivity.

(** C9. A Run control is rendered exactly for a pending execution, and a
    Resume control exactly for a paused one. *)
Theorem renderActions_run_resume (e : execution) :
  existsb (is_run_control e) (renderActions e) = status_is e "pending"
  /\ existsb (is_resume_control e) (renderActions e) = status_is e "paused".
Proof.
  destruct e as [id s description phases].
  unfold renderActions, status_is, is_run_control, is_resume_control.
  cbn [exec_status exec_id existsb].
  split; by_status s.
Qed.

(** A pending execution is offered Run only: there is a non-terminal status
    without a Cancel control. *)
Lemma pending_has_no_cancel :
  ~ (forall e : execution,
       In (exec_status e) non_terminal ->
       existsb (is_cancel_control e) (renderActions e) = true).
Proof.
  intro H.
  specialize (H (mkExecution "e1" "pending" None None)).
  cbn in H. discriminate H. now left.
Qed.

(** C2, as the code has it. A Cancel control is rendered exactly for the
    statuses running, paused and awaiting_approval; a pending execution and
    an execution in a terminal status get none. *)
Theorem renderActions_cancel (e : execution) :
  existsb (is_cancel_control e) (renderActions e)
  = (status_is e "running" || status_is e "paused"
     || status_is e "awaiting_approval").
Proof.
  destruct e as [id s description phases].
  unfold renderActions, status_is, is_cancel_control.
  cbn [exec_status exec_id existsb].
  by_status s.
Qed.

(** ** [renderBudget] *)

Lemma Qgtb_false (a b : Q) : Qgtb a b = false <-> a <= b.
Proof.
  unfold Qgtb. rewrite negb_false_iff. apply Qle_bool_iff.
Qed.




Example renderBudget_three_quarters :
  renderBudget (Some (mkBudget (Some 30) (Some 40))) (mkBudgetBar 0 [] "")
  = {| fill_width_percent := Qmin (30 / 40 * 100) 100;
       fill_classList := ["budget-fill"; "warning"];
       budget_text := "$30.00 / $40.00" |}.
Proof. reflexivity. Qed.

(** ** [groupPhases] *)

(** The loop leaves within [sorted.length - i] turns: any two supplies of
    fuel that large give the same markup, so no result is cut short. *)
Lemma groupLoop_fuel (sorted : list phase) :
  forall fuel1 fuel2 i,
    (List.length sorted - i <= fuel1)%nat ->
    (List.length sorted - i <= fuel2)%nat ->
    groupLoop fuel1 sorted i = groupLoop fuel2 sorted i.
Proof.
  assert (past : forall fuel i, (List.length sorted <= i)%nat ->
            groupLoop fuel sorted i = []).
  { intros [|fuel] i Hi; [reflexivity|]. cbn [groupLoop].
    apply nth_error_None in Hi. now rewrite Hi. }
  induction fuel1 as [|fuel1 IH]; intros fuel2 i H1 H2.
  - rewrite (past fuel2) by lia. reflexivity.
  - destruct fuel2 as [|fuel2].
    + rewrite (past (S fuel1)) by lia. reflexivity.
    + cbn [groupLoop].
      destruct (nth_error sorted i) as [ph|] eqn:Hi; [|reflexivity].
      assert (Hlt : (i < List.length sorted)%nat).
      { apply nth_error_Some. congruence. }
      rewrite (IH fuel2 (i + List.length (filter (runs_alongside ph) sorted) + 1)%nat)
        by lia.
      rewrite (IH fuel2 (i + 1)%nat) by lia.
      reflexivity.
Qed.

(** [groupPhases] with any larger supply of fuel is [groupPhases]. *)
Lemma groupPhases_total (phases : list phase) (extra : nat) :
  groupLoop (List.length (sort_by_order phases) + extra)
    (sort_by_order phases) 0
  = groupPhases phases.
Proof. unfold groupPhases. apply groupLoop_fuel; lia. Qed.

(** C1 fails on the code. [review] runs alongside [plan] but [build] stands
    between them in order: the group of [plan] holds [review], the loop
    then steps over [build], which is never drawn, and lands on [review],
    which is drawn a second time on its own.  Likewise a phase that
    precedes the phase it runs alongside ([lint] before [test]) is drawn
    on its own and again inside the group. *)
Theorem groupPhases_drops_and_repeats :
  groupPhases [plan; build; review]
    = [ParallelGroup plan [review] true; Standalone review false]
  /\ rendered_cards (groupPhases [plan; build; review]) = [plan; review; review]
  /\ groupPhases [lint; test]
    = [Standalone lint true; ParallelGroup test [lint] false]
  /\ rendered_cards (groupPhases [lint; test]) = [lint; test; lint].
Proof. repeat split; reflexivity. Qed.

(** ** The handlers of the channel *)

Lemma handle_todo_update (data : ws_event) (now : Z) (st : state) :
  ev_type data = "todo_update" ->
  handleWebSocketMessage data now st
  = renderTodos
      (on_app (set_todoProgress (ev_progress data))
         (on_app (set_todos match ev_todos data with
                            | Some l => l
                            | None => []
                            end) st)).
Proof.
  intro Htype. unfold handleWebSocketMessage, type_is. rewrite Htype.
  reflexivity.
Qed.


(** C8. A [todo_update] event replaces the todo list and the progress
    summary by its payload (a missing list is the empty list, missing
    progress is [null]); the todo panel exists afterwards and is hidden
    exactly when the new list is empty; and nothing of the client state
    besides these two fields and the panel is changed. *)
Theorem todo_update_replaces_todos (data : ws_event) (now : Z) (st : state) :
  ev_type data = "todo_update" ->
  let payload := match ev_todos data with
                 | Some l => l
                 | None => []
                 end in
  let st' := handleWebSocketMessage data now st in
  todos (app st') = payload
  /\ todoProgress (app st') = ev_progress data
  /\ (exists p, todo_panel (doc st') = Some p
                /\ (panel_display p = "none" <-> payload = []))
  /\ app st' = set_todoProgress (ev_progress data) (set_todos payload (app st))
  /\ doc st' = set_todo_panel (todo_panel (doc st')) (doc st)
  /\ env st' = env st.
Proof.
  intros Htype payload st'. subst st'.
  rewrite (handle_todo_update data now st Htype). fold payload.
  unfold renderTodos. cbn [app on_app on_doc todos set_todoProgress set_todos].
  destruct payload as [|t l]; cbn.
  - repeat split; try reflexivity.
    eexists. split; [reflexivity|]. cbn. split; reflexivity.
  - repeat split; try reflexivity.
    eexists. split; [reflexivity|]. cbn. split; intro H; discriminate H.
Qed.

(** A [todo_update] with two items, received on a fresh page. *)
Lemma todo_update_replaces_todos_witness :
  let data :=
    {| ev_type := "todo_update"; ev_status := None; ev_execution := None;
       ev_template_phases := None; ev_pending_approval := None;
       ev_todos := Some two_todos; ev_todo_progress := None;
       ev_progress := Some (mkProgress (Some 0) (Some 0) (Some 2) (Some 1));
       ev_message := ""; ev_timeout_seconds := None; ev_budget := None |} in
  let st := initial_state "https:" "localhost" in
  let st' := handleWebSocketMessage data 0 st in
  todos (app st') = two_todos
  /\ todoProgress (app st') = ev_progress data
  /\ (exists p, todo_panel (doc st') = Some p
                /\ (panel_display p = "none" <-> two_todos = []))
  /\ app st' = set_todoProgress (ev_progress data) (set_todos two_todos (app st))
  /\ doc st' = set_todo_panel (todo_panel (doc st')) (doc st)
  /\ env st' = env st.
Proof.
  intros data st.
  exact (todo_update_replaces_todos data 0 st eq_refl).
Defined.

(** ** The approval banner *)

(** Splits a state into its fields. *)
Ltac open_state st :=
  let a := fresh "a" in
  let d := fresh "d" in
  let e := fresh "e" in
  destruct st as [a d e]; destruct a, d, e.

Ltac compute_state :=
  cbn -[remaining_seconds Qle_bool timeDisplay escapeHtml groupPhases
        renderActions truncate Pos.eqb Pos.succ].

(** [showApprovalBanner] always ends with the banner on screen. *)
Lemma showApprovalBanner_banner (message : string) (timeout : option Q)
    (now : Z) (st : state) :
  approval_banner (doc (showApprovalBanner message timeout now st))
  = Some (mkBanner "flex" (Some (opening_content message timeout now))).
Proof.
  open_state st. unfold showApprovalBanner, updateBanner, opening_content.
  fold (timeout_of timeout).
  destruct approvalCountdownInterval0, approval_banner0; compute_state;
    destruct (Qle_bool (remaining_seconds (timeout_of timeout) now now) 0);
    reflexivity.
Qed.

(** When the time is already up as the banner opens, the first
    [updateBanner] reports the timeout and calls [hideApprovalBanner]; the
    lines after it arm a new interval and put the banner on screen. *)
Lemma showApprovalBanner_expired (message : string) (timeout : option Q)
    (now : Z) (st : state) :
  Qle_bool (remaining_seconds (timeout_of timeout) now now) 0 = true ->
  let st' := showApprovalBanner message timeout now st in
  pendingApproval (app st') = None
  /\ approvalCountdownInterval (app st') = Some (next_handle (env st))
  /\ In (mkCountdown (next_handle (env st)) message (timeout_of timeout))
       (intervals (env st'))
  /\ exists shown,
       toast_container (doc st')
       = Some (shown ++ [mkToast "toast toast-warning" "Approval request timed out"])%list.
Proof.
  intro Hup. open_state st. unfold showApprovalBanner, updateBanner.
  fold (timeout_of timeout).
  destruct approvalCountdownInterval0, approval_banner0; compute_state;
    rewrite Hup; compute_state;
    (split; [reflexivity|]; split; [reflexivity|];
     split; [apply in_or_app; right; now left | eexists; reflexivity]).
Qed.

(** A tick finds [this.pendingApproval] null: the callback throws on its
    first line and the turn changes nothing. *)
Lemma interval_fired_without_approval (h : positive) (now : Z) (st : state) :
  pendingApproval (app st) = None -> interval_fired h now st = st.
Proof.
  intro Hnone. unfold interval_fired, updateBanner. rewrite Hnone.
  destruct (find _ _); reflexivity.
Qed.

Lemma expired_at_start (now : Z) :
  Qle_bool (remaining_seconds 0 now now) 0 = true.
Proof. unfold remaining_seconds. rewrite Z.sub_diag. reflexivity. Qed.

(** C3 fails on the code for a banner opened with no time left, as in an
    [init] event taken at the moment of expiry.  [showApprovalBanner(message,
    0)] reports the timeout and hides the banner inside its first
    [updateBanner()], and then arms the interval and sets [display = 'flex']:
    the banner is on screen reading [Expired], [this.pendingApproval] is
    null, so every later tick throws and nothing takes the banner down. *)
Theorem expired_banner_stays (message : string) (now : Z) (st : state)
    (later : list (positive * Z)) :
  let opened := showApprovalBanner message (Some 0) now st in
  let st' := ticks later opened in
  st' = opened
  /\ approval_banner (doc st')
     = Some (mkBanner "flex"
               (Some (mkBannerContent "Expired" (escapeHtml message)
                        approval_buttons)))
  /\ pendingApproval (app st') = None
  /\ In (mkCountdown (next_handle (env st)) message 0) (intervals (env st')).
Proof.
  intros opened st'.
  destruct (showApprovalBanner_expired message (Some 0) now st
              (expired_at_start now)) as (Hnone & _ & Harmed & _).
  fold opened in Hnone, Harmed.
  assert (Hsame : st' = opened).
  { subst st'. induction later as [|[h t] later IH]; [reflexivity|].
    cbn [ticks fold_left fst snd].
    rewrite (interval_fired_without_approval h t opened Hnone). exact IH. }
  rewrite Hsame. repeat split; try assumption.
  subst opened. rewrite showApprovalBanner_banner.
  unfold opening_content, remaining_seconds, timeout_of.
  rewrite Z.sub_diag. reflexivity.
Qed.

(** While a request is pending, a tick writes the time left into the
    banner; when none is left it also reports the timeout, clears the
    interval and takes the banner down. *)
Lemma updateBanner_counts_down (message : string) (timeoutSeconds : Q)
    (now : Z) (st : state) (pending : approval) (b : banner) :
  pendingApproval (app st) = Some pending ->
  approval_banner (doc st) = Some b ->
  let remaining := remaining_seconds timeoutSeconds (startedAt pending) now in
  let content :=
    mkBannerContent (timeDisplay remaining) (escapeHtml message)
      approval_buttons in
  exists st',
    updateBanner message timeoutSeconds now st = Some st'
    /\ (Qle_bool remaining 0 = false ->
        st' = on_banner (set_banner_innerHTML content) st)
    /\ (Qle_bool remaining 0 = true ->
        approval_banner (doc st') = Some (mkBanner "none" (Some content))
        /\ pendingApproval (app st') = None
        /\ approvalCountdownInterval (app st') = None
        /\ intervals (env st')
           = match approvalCountdownInterval (app st) with
             | Some h =>
                 filter (fun c => negb (Pos.eqb (cd_handle c) h))
                   (intervals (env st))
             | None => intervals (env st)
             end
        /\ exists shown,
             toast_container (doc st')
             = Some (shown ++ [mkToast "toast toast-warning"
                                 "Approval request timed out"])%list).
Proof.
  intros Hpending Hbanner remaining content.
  unfold updateBanner. rewrite Hpending. fold remaining. fold content.
  destruct (Qle_bool remaining 0) eqn:Hup.
  - eexists. split; [reflexivity|]. split; [discriminate|]. intros _.
    open_state st. cbn in Hpending, Hbanner. subst.
    destruct approvalCountdownInterval0; compute_state.
    + repeat (split; [reflexivity|]).
      split; [|eexists; reflexivity].
      induction intervals0 as [|c l IH]; [reflexivity|].
      cbn [filter]. destruct (negb (cd_handle c =? p)%positive) eqn:E.
      * cbn [filter]. rewrite E. now rewrite IH.
      * exact IH.
    + repeat (split; [reflexivity|]). eexists; reflexivity.
  - eexists. split; [reflexivity|]. split; [reflexivity|discriminate].
Qed.

(** ** The [init] event *)


(** [showApprovalBanner] touches the banner, its countdown and its toast
    only. *)
Lemma showApprovalBanner_frame (message : string) (timeout : option Q)
    (now : Z) (st : state) :
  let st' := showApprovalBanner message timeout now st in
  same_pipeline (doc st') (doc st)
  /\ todo_panel (doc st') = todo_panel (doc st)
  /\ todos (app st') = todos (app st)
  /\ todoProgress (app st') = todoProgress (app st)
  /\ sent (env st') = sent (env st)
  /\ sockets (env st') = sockets (env st)
  /\ timeouts (env st') = timeouts (env st).
Proof.
  open_state st. unfold showApprovalBanner, updateBanner, same_pipeline.
  destruct approvalCountdownInterval0, approval_banner0; compute_state;
    match goal with
    | |- context [Qle_bool ?r 0] => destruct (Qle_bool r 0)
    end; compute_state; repeat split; reflexivity.
Qed.


Lemma renderTodos_frame (st : state) :
  app (renderTodos st) = app st
  /\ env (renderTodos st) = env st
  /\ same_pipeline (doc (renderTodos st)) (doc st)
  /\ approval_banner (doc (renderTodos st)) = approval_banner (doc st).
Proof.
  unfold renderTodos, same_pipeline.
  destruct (todos (app st)); cbn; repeat split; reflexivity.
Qed.



(** ** What is written to the channel *)

Lemma handleWebSocketMessage_branches (data : ws_event) (now : Z) (st : state) :
  handleWebSocketMessage data now st
  = on_todo_update data
      (on_budget_update data
         (on_approval_resolved data
            (on_approval_needed data now
               (on_init data now (on_progress_events data st))))).
Proof. reflexivity. Qed.

Lemma same_wire_refl (st : state) : same_wire st st.
Proof. reflexivity. Qed.

Lemma same_wire_trans (st1 st2 st3 : state) :
  same_wire st3 st2 -> same_wire st2 st1 -> same_wire st3 st1.
Proof. unfold same_wire. congruence. Qed.

Lemma hideApprovalBanner_wire (st : state) :
  same_wire (hideApprovalBanner st) st.
Proof.
  open_state st. unfold hideApprovalBanner, same_wire.
  destruct approvalCountdownInterval0, approval_banner0; reflexivity.
Qed.

Lemma showApprovalBanner_wire (message : string) (timeout : option Q)
    (now : Z) (st : state) :
  same_wire (showApprovalBanner message timeout now st) st.
Proof. apply showApprovalBanner_frame. Qed.

Lemma selectExecution_wire (id : string) (st : state) :
  same_wire (selectExecution id st) st.
Proof. reflexivity. Qed.

Lemma renderTodos_wire (st : state) : same_wire (renderTodos st) st.
Proof. unfold same_wire. now rewrite (proj1 (proj2 (renderTodos_frame st))). Qed.

Lemma renderExecutionList_wire (st : state) :
  same_wire (renderExecutionList st) st.
Proof.
  unfold renderExecutionList, same_wire.
  destruct (filterExecutionList _ _); reflexivity.
Qed.

Lemma connectWebSocket_wire (id : string) (st : state) :
  same_wire (connectWebSocket id st) st.
Proof.
  open_state st. unfold connectWebSocket, same_wire.
  destruct wsReconnectTimeout0, ws0; reflexivity.
Qed.

Lemma ws_onclose_wire (id : string) (st : state) :
  same_wire (ws_onclose id st) st.
Proof.
  unfold ws_onclose.
  destruct (_ && _).
  - apply (same_wire_trans _ (hideApprovalBanner st));
      [reflexivity | apply hideApprovalBanner_wire].
  - apply hideApprovalBanner_wire.
Qed.

Lemma interval_fired_wire (h : positive) (now : Z) (st : state) :
  same_wire (interval_fired h now st) st.
Proof.
  unfold interval_fired.
  destruct (find _ _) as [c|]; [|reflexivity].
  unfold updateBanner.
  destruct (pendingApproval (app st)) as [pending|]; [|reflexivity].
  destruct (Qle_bool _ 0); [|reflexivity].
  eapply same_wire_trans; [apply hideApprovalBanner_wire|].
  unfold same_wire, clearInterval.
  destruct (approvalCountdownInterval _); reflexivity.
Qed.

Lemma selectExecution_resume_wire (id : string) (reply : fetch_outcome)
    (st : state) :
  same_wire (selectExecution_resume id reply st) st.
Proof.
  unfold selectExecution_resume.
  destruct reply as [|[] [data|]]; try reflexivity.
  unfold same_wire. cbn [setLoading on_doc on_app env].
  rewrite connectWebSocket_wire. cbn [on_doc on_app env].
  rewrite renderExecutionList_wire. reflexivity.
Qed.

Lemma on_todo_update_wire (data : ws_event) (st : state) :
  same_wire (on_todo_update data st) st.
Proof.
  unfold on_todo_update. destruct (type_is data "todo_update");
    [|apply same_wire_refl].
  unfold same_wire. rewrite renderTodos_wire. reflexivity.
Qed.

Lemma on_budget_update_wire (data : ws_event) (st : state) :
  same_wire (on_budget_update data st) st.
Proof.
  unfold on_budget_update.
  destruct (type_is data "budget_update"), (ev_budget data); reflexivity.
Qed.

Lemma on_approval_resolved_wire (data : ws_event) (st : state) :
  same_wire (on_approval_resolved data st) st.
Proof.
  unfold on_approval_resolved. destruct (type_is data "approval_resolved");
    [|apply same_wire_refl]. cbv zeta.
  destruct (selectedExecution (app (hideApprovalBanner st)));
    unfold same_wire; rewrite ?selectExecution_wire;
    apply hideApprovalBanner_wire.
Qed.

Lemma on_approval_needed_wire (data : ws_event) (now : Z) (st : state) :
  same_wire (on_approval_needed data now st) st.
Proof.
  unfold on_approval_needed. destruct (type_is data "approval_needed");
    [|apply same_wire_refl].
  apply (same_wire_trans _
           (showApprovalBanner (ev_message data) (ev_timeout_seconds data) now st));
    [|apply showApprovalBanner_wire].
  unfold showBrowserNotification.
  destruct (negb _); [reflexivity|].
  destruct (negb _); [reflexivity|].
  destruct (document_hasFocus _); reflexivity.
Qed.

Lemma on_init_wire (data : ws_event) (now : Z) (st : state) :
  same_wire (on_init data now st) st.
Proof.
  unfold on_init. destruct (type_is data "init"); [|apply same_wire_refl].
  destruct (ev_execution data) as [execution|]; [|apply same_wire_refl].
  cbv zeta.
  assert (Hbanner : forall s,
            same_wire
              match ev_pending_approval data with
              | Some pending =>
                  showApprovalBanner (request_message pending)
                    (request_timeout_seconds pending) now s
              | None => s
              end s).
  { intro s. destruct (ev_pending_approval data);
      [apply showApprovalBanner_wire | apply same_wire_refl]. }
  destruct (ev_todos data); unfold same_wire;
    rewrite ?renderTodos_wire; cbn [on_app env]; rewrite Hbanner; reflexivity.
Qed.

Lemma on_progress_events_wire (data : ws_event) (st : state) :
  same_wire (on_progress_events data st) st.
Proof.
  unfold on_progress_events.
  destruct (_ || _); [|apply same_wire_refl].
  destruct (selectedExecution (app st)) as [selected|]; [|apply same_wire_refl].
  cbv zeta.
  destruct (type_is data "status_update"), (ev_status data) as [[|c s]|];
    try reflexivity.
  destruct (existsb _ _); [|reflexivity].
  unfold same_wire, updateStats. cbn [on_doc on_app env].
  rewrite renderExecutionList_wire. reflexivity.
Qed.

(** No branch of [handleWebSocketMessage] writes to a socket. *)
Lemma handleWebSocketMessage_wire (data : ws_event) (now : Z) (st : state) :
  same_wire (handleWebSocketMessage data now st) st.
Proof.
  rewrite handleWebSocketMessage_branches. unfold same_wire.
  rewrite on_todo_update_wire, on_budget_update_wire,
    on_approval_resolved_wire, on_approval_needed_wire, on_init_wire,
    on_progress_events_wire.
  reflexivity.
Qed.

(** [hideApprovalBanner] forgets the request, disarms the countdown and
    takes the banner off the screen. *)
Lemma hideApprovalBanner_hides (st : state) :
  let st' := hideApprovalBanner st in
  pendingApproval (app st') = None
  /\ approvalCountdownInterval (app st') = None
  /\ banner_hidden st'.
Proof.
  open_state st. unfold hideApprovalBanner, banner_hidden.
  destruct approvalCountdownInterval0, approval_banner0; cbn;
    repeat split; reflexivity.
Qed.

(** Every turn of the client leaves the messages written to the sockets as
    they were, or adds one approval response. *)
Lemma step_sends_approvals_only (ev : event) (st : state) :
  sent (env (step ev st)) = sent (env st)
  \/ exists h approved,
       sent (env (step ev st))
       = (sent (env st) ++ [(h, mkClientMessage "approve" approved)])%list.
Proof.
  destruct ev as [h|h data now|h|h now|h|id|approved|k reply]; cbn [step].
  - left. destruct (find_socket h (env st)) as [s|]; [|reflexivity].
    destruct (sock_readyState s); reflexivity.
  - left. destruct (find_socket h (env st)) as [s|]; [|reflexivity].
    destruct (sock_readyState s); try reflexivity;
      apply handleWebSocketMessage_wire.
  - left. destruct (find_socket h (env st)) as [s|]; [|reflexivity].
    destruct (sock_readyState s); try reflexivity;
      (destruct (sock_onclose s); [|reflexivity];
       rewrite ws_onclose_wire; reflexivity).
  - left. apply interval_fired_wire.
  - left. unfold timeout_fired. destruct (find _ _); reflexivity.
  - left. reflexivity.
  - unfold respondToApproval.
    destruct (selectedExecution (app st)) as [selected|]; [|now left].
    destruct (open_socket st) as [h|]; [|now left].
    right. exists h, approved. rewrite hideApprovalBanner_wire. reflexivity.
  - left. destruct (nth_error _ k) as [[id|]|]; [| |reflexivity].
    + rewrite selectExecution_resume_wire. reflexivity.
    + destruct reply; [reflexivity|].
      unfold respondToApproval_resume. rewrite hideApprovalBanner_wire.
      reflexivity.
Qed.

(** The response went out as a POST, the request failed, and the banner is
    still on screen. *)
Lemma failed_post_leaves_banner_open :
  let st := run approve_while_reconnecting (initial_state "https:" "localhost") in
  open_socket st = None
  /\ sent (env st) = []
  /\ requests (env st)
     = [ mkRequest "GET" "/api/workflow/executions/A";
         mkRequest "GET" "/api/workflow/executions/A";
         mkRequest "POST" "/api/workflow/executions/A/approve" ]
  /\ alerts (env st) = ["Failed to respond to approval request"]
  /\ approval_banner (doc st)
     = Some (mkBanner "flex"
               (Some (mkBannerContent "5:00" "Deploy to production?"
                        approval_buttons)))
  /\ ~ banner_hidden st.
Proof.
  cbv zeta.
  repeat (split; [vm_compute; reflexivity|]).
  vm_compute. discriminate.
Qed.

(** C7, as the code has it. With no execution selected [respondToApproval]
    does nothing. With an open socket it writes exactly one message, the
    approval response carrying [approved], makes no request and hides the
    banner. Otherwise it writes nothing and POSTs to the approve or reject
    endpoint of the selected execution; once that request is answered the
    banner is hidden, but when the request fails an alert is raised and the
    banner is left as it was. No turn of the client writes anything but
    such an approval response to a socket. *)
Theorem respondToApproval_delivers (approved : bool) (st : state) :
  let st' := respondToApproval approved st in
  match selectedExecution (app st) with
  | None => st' = st
  | Some selected =>
      match open_socket st with
      | Some h =>
          sent (env st')
          = (sent (env st) ++ [(h, mkClientMessage "approve" approved)])%list
          /\ requests (env st') = requests (env st)
          /\ pendingApproval (app st') = None
          /\ approvalCountdownInterval (app st') = None
          /\ banner_hidden st'
      | None =>
          sent (env st') = sent (env st)
          /\ requests (env st')
             = (requests (env st)
                ++ [mkRequest "POST"
                      ("/api/workflow/executions/" ++ exec_id selected ++ "/"
                       ++ (if approved then "approve" else "reject"))])%list
          /\ suspended (env st') = (suspended (env st) ++ [AwaitApprovalPost])%list
          /\ app st' = app st /\ doc st' = doc st
      end
  end
  /\ (forall (ok : bool) (body : option execution_detail) (s : state),
         let s' := respondToApproval_resume (Responded ok body) s in
         pendingApproval (app s') = None
         /\ approvalCountdownInterval (app s') = None
         /\ banner_hidden s'
         /\ sent (env s') = sent (env s)
         /\ alerts (env s') = alerts (env s))
  /\ (forall s : state,
         let s' := respondToApproval_resume Rejected s in
         app s' = app s /\ doc s' = doc s
         /\ sent (env s') = sent (env s)
         /\ alerts (env s')
            = (alerts (env s) ++ ["Failed to respond to approval request"])%list)
  /\ (forall (ev : event) (s : state),
         sent (env (step ev s)) = sent (env s)
         \/ exists h b,
              sent (env (step ev s))
              = (sent (env s) ++ [(h, mkClientMessage "approve" b)])%list).
Proof.
  intro st'. subst st'. split; [|split; [|split]].
  - unfold respondToApproval.
    destruct (selectedExecution (app st)) as [selected|]; [|reflexivity].
    destruct (open_socket st) as [h|].
    + set (written := send h (mkClientMessage "approve" approved) st).
      destruct (hideApprovalBanner_hides written) as (Hp & Hi & Hb).
      repeat split; try assumption.
      * rewrite hideApprovalBanner_wire. reflexivity.
      * open_state st. unfold hideApprovalBanner, written.
        destruct approvalCountdownInterval0, approval_banner0; reflexivity.
    + repeat split; reflexivity.
  - intros ok body s s'. subst s'. cbn [respondToApproval_resume].
    destruct (hideApprovalBanner_hides s) as (Hp & Hi & Hb).
    repeat split; try assumption.
    + apply hideApprovalBanner_wire.
    + open_state s. unfold hideApprovalBanner.
      destruct approvalCountdownInterval0, approval_banner0; reflexivity.
  - intro s. cbn. repeat split; reflexivity.
  - apply step_sends_approvals_only.
Qed.

(** ** Reconnecting *)

Lemma filter_keeps_all {A : Type} (f : A -> bool) (l : list A) :
  Forall (fun x => f x = true) l -> filter f l = l.
Proof.
  induction 1 as [|x l Hx _ IH]; [reflexivity|].
  cbn [filter]. now rewrite Hx, IH.
Qed.

(** Clearing the newest timeout brings the list of armed timeouts back. *)
Lemma clear_newest (h : positive) (t : reconnect) (l : list reconnect) :
  rc_handle t = h ->
  Forall (fun t' => (rc_handle t' < h)%positive) l ->
  filter (fun t' => negb (Pos.eqb (rc_handle t') h)) (l ++ [t]) = l.
Proof.
  intros Ht Hl. rewrite filter_app. cbn [filter].
  rewrite Ht, Pos.eqb_refl. cbn [negb]. rewrite app_nil_r.
  apply filter_keeps_all. revert Hl. apply Forall_impl. intros t' Hlt.
  apply negb_true_iff, Pos.eqb_neq. intro E. rewrite E in Hlt.
  apply (Pos.lt_irrefl _ Hlt).
Qed.

Lemma find_newest (h : positive) (t : reconnect) (l : list reconnect) :
  rc_handle t = h ->
  Forall (fun t' => (rc_handle t' < h)%positive) l ->
  find (fun t' => Pos.eqb (rc_handle t') h) (l ++ [t]) = Some t.
Proof.
  intros Ht Hl. induction Hl as [|t' l Hlt _ IH].
  - cbn. now rewrite Ht, Pos.eqb_refl.
  - cbn [List.app find].
    destruct (Pos.eqb_spec (rc_handle t') h) as [E|_]; [|exact IH].
    rewrite E in Hlt. destruct (Pos.lt_irrefl _ Hlt).
Qed.

Lemma hideApprovalBanner_keeps_sockets (st : state) :
  let st' := hideApprovalBanner st in
  timeouts (env st') = timeouts (env st)
  /\ sockets (env st') = sockets (env st)
  /\ next_handle (env st') = next_handle (env st)
  /\ location_protocol (env st') = location_protocol (env st)
  /\ location_host (env st') = location_host (env st)
  /\ selectedExecution (app st') = selectedExecution (app st)
  /\ ws (app st') = ws (app st)
  /\ wsReconnectAttempts (app st') = wsReconnectAttempts (app st)
  /\ wsReconnectTimeout (app st') = wsReconnectTimeout (app st)
  /\ maxWsReconnectAttempts (app st') = maxWsReconnectAttempts (app st).
Proof.
  open_state st. unfold hideApprovalBanner.
  destruct approvalCountdownInterval0, approval_banner0; cbn;
    repeat split; reflexivity.
Qed.

(** C5. When the socket of [executionId] closes, the approval banner is
    hidden whatever else happens and nothing is written. If that execution
    is still selected and fewer than 5 attempts have been counted, the
    counter goes up by one and a timeout of
    [min(1000 * 2^attempt, 30000)] ms is armed, [attempt] being the new
    count; when it fires, a socket that did not exist before is opened on
    the address of the execution's channel, nothing is written to it, and
    it becomes [this.ws]. With 5 attempts counted, or another execution
    selected, no timeout is armed. *)
Theorem ws_onclose_reconnects (executionId : string) (st : state) :
  handles_fresh st ->
  maxWsReconnectAttempts (app st) = 5%nat ->
  let attempts := wsReconnectAttempts (app st) in
  let st' := ws_onclose executionId st in
  (pendingApproval (app st') = None
   /\ approvalCountdownInterval (app st') = None
   /\ banner_hidden st')
  /\ (sent (env st') = sent (env st)
      /\ sockets (env st') = sockets (env st)
      /\ ws (app st') = ws (app st))
  /\ (is_selected (app st) executionId = true ->
      (attempts < 5)%nat ->
      let h := next_handle (env st) in
      let attempt := S attempts in
      wsReconnectAttempts (app st') = attempt
      /\ wsReconnectTimeout (app st') = Some h
      /\ timeouts (env st')
         = (timeouts (env st)
            ++ [mkReconnect h (Z.min (1000 * 2 ^ Z.of_nat attempt) 30000)
                  executionId])%list
      /\ let st'' := timeout_fired h st' in
         exists s : socket,
           sockets (env st'') = (sockets (env st) ++ [s])%list
           /\ ~ In (sock_handle s) (map sock_handle (sockets (env st)))
           /\ ws (app st'') = Some (sock_handle s)
           /\ sock_url s = channel_url (env st) executionId
           /\ sock_readyState s = CONNECTING
           /\ sock_onclose s = true
           /\ sent (env st'') = sent (env st)
           /\ timeouts (env st'') = timeouts (env st))
  /\ (is_selected (app st) executionId = false \/ (5 <= attempts)%nat ->
      timeouts (env st') = timeouts (env st)
      /\ wsReconnectTimeout (app st') = wsReconnectTimeout (app st)
      /\ wsReconnectAttempts (app st') = attempts
      /\ next_handle (env st') = next_handle (env st)).
Proof.
  intros Hfresh Hmax attempts st'.
  destruct (hideApprovalBanner_hides st) as (Hp & Hi & Hb).
  destruct (hideApprovalBanner_keeps_sockets st)
    as (Ht & Hs & Hn & Hlp & Hlh & Hsel & Hws & Hatt & Htimer & Hmx).
  pose proof (hideApprovalBanner_wire st) as Hsent. unfold same_wire in Hsent.
  destruct Hfresh as (Ftimeouts & Fsockets & _).
  subst st'. unfold ws_onclose. cbv zeta.
  set (hidden := hideApprovalBanner st) in *.
  assert (Eselected : is_selected (app hidden) executionId
                      = is_selected (app st) executionId).
  { unfold is_selected. now rewrite Hsel. }
  rewrite Eselected, Hatt, Hmx, Hmax. fold attempts.
  destruct (is_selected (app st) executionId) eqn:Esel;
    [destruct (Nat.ltb_spec attempts 5) as [Hlt|Hge]|]; cbn [andb].
  - (* a reconnect is scheduled *)
    split; [|split; [|split]].
    + unfold banner_hidden in *. cbn. now repeat split.
    + cbn. now repeat split.
    + intros _ _. cbv zeta. cbn [app env on_app on_env wsReconnectAttempts
        set_wsReconnectAttempts set_wsReconnectTimeout wsReconnectTimeout
        timeouts set_timeouts set_next_handle].
      rewrite Hatt, Hn, Ht. fold attempts.
      split; [reflexivity|]. split; [reflexivity|]. split; [reflexivity|].
      unfold timeout_fired.
      cbn [app env on_app on_env timeouts set_timeouts set_next_handle].
      rewrite ?Hn, ?Ht, ?Hatt. fold attempts. unfold reconnect_delay.
      set (t := mkReconnect (next_handle (env st))
                  (Z.min (1000 * 2 ^ Z.of_nat (S attempts)) 30000) executionId).
      rewrite (find_newest (next_handle (env st)) t _ eq_refl Ftimeouts).
      cbn [rc_executionId].
      unfold _connectWebSocket, clearTimeout.
      cbn [app env on_app on_env timeouts set_timeouts set_next_handle
             next_handle sockets set_sockets sent set_ws ws].
      rewrite ?Hn, ?Ht, ?Hs.
      rewrite (clear_newest (next_handle (env st)) t _ eq_refl Ftimeouts).
      eexists. split; [reflexivity|].
      cbn [sock_handle sock_url sock_readyState sock_onclose rc_executionId t].
      split.
      { intro Hin. apply in_map_iff in Hin. destruct Hin as (s0 & E & Hin).
        rewrite Forall_forall in Fsockets. specialize (Fsockets s0 Hin).
        rewrite E in Fsockets.
        apply (Pos.lt_irrefl (next_handle (env st))).
        apply (Pos.lt_trans _ (Pos.succ (next_handle (env st))));
          [apply Pos.lt_succ_diag_r | exact Fsockets]. }
      split; [reflexivity|].
      split.
      { unfold channel_url. cbn [location_protocol location_host set_timeouts
          set_next_handle].
        now rewrite Hlp, Hlh. }
      repeat split; try reflexivity. exact Hsent.
    + intros [E|Hge]; [discriminate E | lia].
  - (* five attempts were made *)
    split; [now repeat split|]. split; [now repeat split|].
    split; [intros _ Hlt; lia|].
    intros _. now repeat split.
  - (* another execution is selected *)
    split; [now repeat split|]. split; [now repeat split|].
    split; [intro E; discriminate E|].
    intros _. now repeat split.
Qed.

(** ** States the client can be in *)

Lemma initial_state_sound (protocol host : string) :
  sound (initial_state protocol host).
Proof. repeat split; constructor. Qed.

Lemma initial_state_listening (protocol host : string) :
  listening (initial_state protocol host).
Proof. intros s []. Qed.

Lemma handles_below_le (n m : positive) (b : browser) :
  (n <= m)%positive -> handles_below n b -> handles_below m b.
Proof.
  intros Hle (Ht & Hs & Hc).
  repeat split; [revert Ht | revert Hs | revert Hc]; apply Forall_impl;
    intros x Hx; apply (Pos.lt_le_trans _ _ _ Hx Hle).
Qed.

Lemma Forall_filter_keep {A : Type} (P : A -> Prop) (f : A -> bool)
    (l : list A) :
  Forall P l -> Forall P (filter f l).
Proof.
  induction 1 as [|x l Hx _ IH]; [constructor|].
  cbn [filter]. destruct (f x); [constructor|]; assumption.
Qed.

Lemma handles_below_succ (st : state) :
  handles_fresh st ->
  handles_below (Pos.succ (next_handle (env st))) (env st).
Proof.
  apply handles_below_le, Pos.lt_le_incl, Pos.lt_succ_diag_r.
Qed.

Lemma sound_stable : stable sound.
Proof.
  constructor.
  - intros f st Hf [Hfresh Hmax]. split; [exact Hfresh|].
    cbn. now rewrite (proj1 (Hf (app st))).
  - intros f st H. exact H.
  - intros f st Hf [(Ht & Hs & Hc) Hmax]. split; [|exact Hmax].
    destruct (Hf (env st)) as (En & Et & Es & Ec).
    unfold handles_fresh, handles_below. cbn [env on_env].
    rewrite En, Et, Es, Ec. now repeat split.
  - intros [h|] st [(Ht & Hs & Hc) Hmax]; [|now split].
    split; [|exact Hmax]. repeat split; try assumption.
    cbn. now apply Forall_filter_keep.
  - intros message timeoutSeconds st [Hfresh Hmax]. split; [|exact Hmax].
    destruct (handles_below_succ st Hfresh) as (Ht & Hs & Hc).
    repeat split; try assumption. cbn. apply Forall_app. split; [exact Hc|].
    repeat constructor. apply Pos.lt_succ_diag_r.
  - intros delay executionId st [Hfresh Hmax]. split; [|exact Hmax].
    destruct (handles_below_succ st Hfresh) as (Ht & Hs & Hc).
    repeat split; try assumption. cbn. apply Forall_app. split; [exact Ht|].
    repeat constructor. apply Pos.lt_succ_diag_r.
Qed.

Lemma listening_stable : stable listening.
Proof.
  constructor; unfold listening.
  - intros f st Hf H s Hin Hws. cbn in Hin, Hws.
    rewrite (proj2 (Hf (app st))) in Hws. now apply H.
  - intros f st H. exact H.
  - intros f st Hf H s Hin Hws. cbn in Hin, Hws.
    destruct (Hf (env st)) as (_ & _ & Es & _). rewrite Es in Hin.
    now apply H.
  - intros [h|] st H; [|exact H]. exact H.
  - intros message timeoutSeconds st H. exact H.
  - intros delay executionId st H. exact H.
Qed.

Section Stable.

Variable P : state -> Prop.
Hypothesis HP : stable P.

(** Walks down a chain of field updates. *)
Ltac keep :=
  repeat first
    [ assumption
    | apply (stable_doc P HP)
    | apply (stable_app P HP); [intro; split; reflexivity|]
    | apply (stable_clearInterval P HP)
    | apply (stable_setInterval P HP)
    | apply (stable_setTimeout P HP)
    | apply (stable_env P HP); [intro; repeat split; reflexivity|]
    | match goal with
      | |- P (match ?x with _ => _ end) => destruct x
      end ].

Lemma kept_hideApprovalBanner (st : state) :
  P st -> P (hideApprovalBanner st).
Proof. intro H. unfold hideApprovalBanner, on_banner. keep. Qed.

Lemma kept_showToast (message type : string) (st : state) :
  P st -> P (showToast message type st).
Proof. intro H. unfold showToast. keep. Qed.

Lemma kept_updateBanner (message : string) (timeoutSeconds : Q) (now : Z)
    (st st' : state) :
  P st -> updateBanner message timeoutSeconds now st = Some st' -> P st'.
Proof.
  intros H. unfold updateBanner.
  destruct (pendingApproval (app st)); [|discriminate].
  destruct (Qle_bool _ 0); intro E; injection E as <-.
  - apply kept_hideApprovalBanner. apply (stable_clearInterval P HP).
    apply kept_showToast. unfold on_banner. keep.
  - unfold on_banner. keep.
Qed.

Lemma kept_showApprovalBanner (message : string) (timeout : option Q)
    (now : Z) (st : state) :
  P st -> P (showApprovalBanner message timeout now st).
Proof.
  intro H. unfold showApprovalBanner. cbv zeta.
  match goal with
  | |- P (match updateBanner ?m ?t ?n ?s with _ => _ end) =>
      assert (Hs : P s) by keep;
      destruct (updateBanner m t n s) as [s'|] eqn:E; [|exact Hs];
      pose proof (kept_updateBanner _ _ _ _ _ Hs E)
  end.
  unfold on_banner. keep.
Qed.

Lemma kept_interval_fired (h : positive) (now : Z) (st : state) :
  P st -> P (interval_fired h now st).
Proof.
  intro H. unfold interval_fired.
  destruct (find _ _) as [c|]; [|exact H].
  destruct (updateBanner _ _ _ _) eqn:E; [|exact H].
  apply (kept_updateBanner _ _ _ _ _ H E).
Qed.

Lemma kept_ws_onclose (executionId : string) (st : state) :
  P st -> P (ws_onclose executionId st).
Proof.
  intro H. apply kept_hideApprovalBanner in H.
  unfold ws_onclose. cbv zeta. destruct (_ && _); [|exact H].
  apply (stable_app P HP); [intro; split; reflexivity|].
  apply (stable_setTimeout P HP).
  apply (stable_app P HP); [intro; split; reflexivity|]. exact H.
Qed.

Lemma kept_renderTodos (st : state) : P st -> P (renderTodos st).
Proof. intro H. unfold renderTodos. keep. Qed.

Lemma kept_renderExecutionList (st : state) :
  P st -> P (renderExecutionList st).
Proof. intro H. unfold renderExecutionList. keep. Qed.

Lemma kept_setLoading (loading : bool) (st : state) :
  P st -> P (setLoading loading st).
Proof. intro H. unfold setLoading. keep. Qed.

Lemma kept_selectExecution (id : string) (st : state) :
  P st -> P (selectExecution id st).
Proof. intro H. unfold selectExecution, setLoading. keep. Qed.

Lemma kept_handleWebSocketMessage (data : ws_event) (now : Z) (st : state) :
  P st -> P (handleWebSocketMessage data now st).
Proof.
  intro H. rewrite handleWebSocketMessage_branches.
  assert (H1 : P (on_progress_events data st)).
  { unfold on_progress_events. destruct (_ || _); [|exact H].
    destruct (selectedExecution (app st)) as [selected|]; [|exact H].
    cbv zeta. pose proof (kept_selectExecution (exec_id selected) st H) as Hs.
    destruct (type_is data "status_update"), (ev_status data) as [[|c s]|];
      try exact Hs.
    destruct (existsb _ _); [|exact Hs].
    unfold updateStats. cbv zeta. apply (stable_doc P HP).
    apply (stable_doc P HP). apply kept_renderExecutionList. keep. }
  assert (H2 : P (on_init data now (on_progress_events data st))).
  { revert H1. generalize (on_progress_events data st). intros s Hs.
    unfold on_init. destruct (type_is data "init"); [|exact Hs].
    destruct (ev_execution data) as [execution|]; [|exact Hs]. cbv zeta.
    assert (Hb : P
              match ev_pending_approval data with
              | Some pending =>
                  showApprovalBanner (request_message pending)
                    (request_timeout_seconds pending) now
                    (on_doc (renderPipeline execution (ev_template_phases data)) s)
              | None =>
                  on_doc (renderPipeline execution (ev_template_phases data)) s
              end).
    { destruct (ev_pending_approval data);
        [apply kept_showApprovalBanner|]; apply (stable_doc P HP); exact Hs. }
    destruct (ev_todos data); [|exact Hb].
    apply kept_renderTodos. keep. }
  revert H2. generalize (on_init data now (on_progress_events data st)).
  intros s Hs.
  assert (H3 : P (on_approval_needed data now s)).
  { unfold on_approval_needed. destruct (type_is data "approval_needed");
      [|exact Hs].
    unfold showBrowserNotification.
    pose proof (kept_showApprovalBanner (ev_message data)
                  (ev_timeout_seconds data) now s Hs).
    destruct (negb _); [assumption|]. destruct (negb _); [assumption|].
    destruct (document_hasFocus _); [assumption|]. keep. }
  revert H3. generalize (on_approval_needed data now s). clear s Hs.
  intros s Hs.
  assert (H4 : P (on_approval_resolved data s)).
  { unfold on_approval_resolved. destruct (type_is data "approval_resolved");
      [|exact Hs]. cbv zeta.
    pose proof (kept_hideApprovalBanner s Hs).
    destruct (selectedExecution _); [apply kept_selectExecution|]; assumption. }
  revert H4. generalize (on_approval_resolved data s). clear s Hs.
  intros s Hs.
  assert (H5 : P (on_budget_update data s)).
  { unfold on_budget_update.
    destruct (type_is data "budget_update"), (ev_budget data); keep. }
  revert H5. generalize (on_budget_update data s). clear s Hs.
  intros s Hs.
  unfold on_todo_update. destruct (type_is data "todo_update"); [|exact Hs].
  apply kept_renderTodos. keep.
Qed.

Lemma kept_respondToApproval (approved : bool) (st : state) :
  P st -> P (respondToApproval approved st).
Proof.
  intro H. unfold respondToApproval.
  destruct (selectedExecution (app st)); [|exact H].
  destruct (open_socket st).
  - apply kept_hideApprovalBanner. unfold send. keep.
  - keep.
Qed.

Lemma kept_respondToApproval_resume (reply : fetch_outcome) (st : state) :
  P st -> P (respondToApproval_resume reply st).
Proof.
  intro H. unfold respondToApproval_resume.
  destruct reply; [keep | now apply kept_hideApprovalBanner].
Qed.

(** [selectExecution] from the reply up to its call of [connectWebSocket]. *)
Lemma kept_before_connect (executionId : string) (data : execution_detail)
    (st : state) :
  P st ->
  P (on_doc (fun d =>
       set_budget_bar_el (renderBudget (detail_budget data) (budget_bar_el d)) d)
       (on_doc (renderPipeline (detail_execution data)
                  (detail_template_phases data))
          (renderExecutionList
             (on_app (fun a =>
                set_executions
                  (set_status_of executionId
                     (exec_status (detail_execution data)) (executions a)) a)
                (on_app (set_selectedExecution (Some (detail_execution data)))
                   st))))).
Proof.
  intro H. apply (stable_doc P HP). apply (stable_doc P HP).
  apply kept_renderExecutionList. keep.
Qed.

End Stable.

(** *** Sockets *)

Lemma sound_clearTimeout (h : positive) (st : state) :
  sound st -> sound (clearTimeout h st).
Proof.
  intros [(Ht & Hs & Hc) Hmax]. split; [|exact Hmax].
  repeat split; try assumption. cbn. now apply Forall_filter_keep.
Qed.

Lemma sound_on_socket (h : positive) (f : socket -> socket) (st : state) :
  (forall s, sock_handle (f s) = sock_handle s) ->
  sound st -> sound (on_socket h f st).
Proof.
  intros Hf [(Ht & Hs & Hc) Hmax]. split; [|exact Hmax].
  repeat split; try assumption. cbn. apply Forall_map.
  revert Hs. apply Forall_impl. intros s Hlt.
  destruct (Pos.eqb _ h); [rewrite Hf|]; exact Hlt.
Qed.

Lemma sound_connect (executionId : string) (st : state) :
  sound st -> sound (_connectWebSocket executionId st).
Proof.
  intros [Hfresh Hmax]. split; [|exact Hmax].
  destruct (handles_below_succ st Hfresh) as (Ht & Hs & Hc).
  repeat split; try assumption. cbn. apply Forall_app. split; [exact Hs|].
  repeat constructor. apply Pos.lt_succ_diag_r.
Qed.

(** The new socket is the only one with its handle, and it listens. *)
Lemma listening_connect (executionId : string) (st : state) :
  sound st -> listening (_connectWebSocket executionId st).
Proof.
  intros [(_ & Hs & _) _] s Hin Hws. cbn in Hin, Hws.
  apply in_app_or in Hin. destruct Hin as [Hin|[<-|[]]]; [|reflexivity].
  rewrite Forall_forall in Hs. specialize (Hs s Hin).
  injection Hws as E. rewrite <- E in Hs. destruct (Pos.lt_irrefl _ Hs).
Qed.

Lemma listening_clearTimeout (h : positive) (st : state) :
  listening st -> listening (clearTimeout h st).
Proof. intro H. exact H. Qed.

Lemma listening_on_socket (h : positive) (f : socket -> socket) (st : state) :
  (forall s, sock_handle (f s) = sock_handle s
             /\ sock_onclose (f s) = sock_onclose s) ->
  listening st -> listening (on_socket h f st).
Proof.
  intros Hf H s Hin Hws. cbn in Hin, Hws.
  apply in_map_iff in Hin. destruct Hin as (s0 & E & Hin).
  destruct (Hf s0) as [Eh Ec].
  destruct (Pos.eqb (sock_handle s0) h); subst s.
  - rewrite Ec. apply (H s0 Hin). now rewrite <- Eh.
  - now apply H.
Qed.

(** [connectWebSocket] silences the socket it replaces; the one it makes
    listens. *)
Lemma connectWebSocket_invariant (executionId : string) (st : state) :
  sound st ->
  sound (connectWebSocket executionId st)
  /\ listening (connectWebSocket executionId st).
Proof.
  intro H. unfold connectWebSocket. cbv zeta.
  match goal with
  | |- sound (_connectWebSocket _ ?s) /\ _ => assert (Hs : sound s)
  end.
  { apply (stable_app sound sound_stable); [intro; split; reflexivity|].
    assert (Hclose : forall s, sock_handle (close s) = sock_handle s).
    { intro s. unfold close. destruct (sock_readyState s); reflexivity. }
    assert (Hcleared : sound
              match wsReconnectTimeout (app st) with
              | Some t => on_app (set_wsReconnectTimeout None) (clearTimeout t st)
              | None => st
              end).
    { destruct (wsReconnectTimeout (app st)); [|exact H].
      apply (stable_app sound sound_stable); [intro; split; reflexivity|].
      now apply sound_clearTimeout. }
    destruct (ws (app _)); [|exact Hcleared].
    apply sound_on_socket; [exact Hclose|].
    apply sound_on_socket; [intros []; reflexivity | exact Hcleared]. }
  split; [now apply sound_connect | now apply listening_connect].
Qed.

Lemma selectExecution_resume_invariant (id : string) (reply : fetch_outcome)
    (st : state) :
  sound st -> listening st ->
  sound (selectExecution_resume id reply st)
  /\ listening (selectExecution_resume id reply st).
Proof.
  intros Hsound Hlistening. unfold selectExecution_resume.
  destruct reply as [|[] [data|]];
    try (split; apply kept_setLoading, kept_showToast;
         auto using sound_stable, listening_stable).
  cbv zeta.
  match goal with
  | |- sound (setLoading false (connectWebSocket id ?s)) /\ _ =>
      assert (Hs : sound s)
        by (apply (kept_before_connect sound sound_stable); exact Hsound);
      destruct (connectWebSocket_invariant id s Hs) as [Hc Hl]
  end.
  split; apply kept_setLoading; auto using sound_stable, listening_stable.
Qed.

(** Every turn keeps both properties, so they hold in every state reached
    from a freshly loaded page. *)
Lemma step_invariant (ev : event) (st : state) :
  sound st -> listening st ->
  sound (step ev st) /\ listening (step ev st).
Proof.
  intros Hsound Hlistening.
  pose proof sound_stable as SS. pose proof listening_stable as LS.
  destruct ev as [h|h data now|h|h now|h|id|approved|k reply]; cbn [step].
  - destruct (find_socket h (env st)) as [s|]; [|now split].
    destruct (sock_readyState s); try (now split).
    unfold ws_onopen.
    split; (eapply stable_app; [eassumption | intro; split; reflexivity |]).
    + apply sound_on_socket; [intros []; reflexivity | exact Hsound].
    + apply listening_on_socket; [intros []; split; reflexivity | exact Hlistening].
  - destruct (find_socket h (env st)) as [s|]; [|now split].
    destruct (sock_readyState s); try (now split);
      (split; apply kept_handleWebSocketMessage; assumption).
  - destruct (find_socket h (env st)) as [s|]; [|now split].
    assert (Hc : sound (on_socket h (set_sock_readyState CLOSED) st)).
    { apply sound_on_socket; [intros []; reflexivity | exact Hsound]. }
    assert (Hl : listening (on_socket h (set_sock_readyState CLOSED) st)).
    { apply listening_on_socket; [intros []; split; reflexivity|].
      exact Hlistening. }
    destruct (sock_readyState s); try (now split);
      (destruct (sock_onclose s); [|now split];
       split; apply kept_ws_onclose; assumption).
  - split; apply kept_interval_fired; assumption.
  - unfold timeout_fired. destruct (find _ _); [|now split].
    pose proof (sound_clearTimeout h st Hsound).
    split; [now apply sound_connect | now apply listening_connect].
  - split; apply kept_selectExecution; assumption.
  - split; apply kept_respondToApproval; assumption.
  - destruct (nth_error _ k) as [[id|]|]; [| |now split].
    + apply selectExecution_resume_invariant;
        (eapply stable_env; [eassumption | intro; repeat split; reflexivity |]);
        assumption.
    + split; apply kept_respondToApproval_resume; try assumption;
        (eapply stable_env; [eassumption | intro; repeat split; reflexivity |]);
        assumption.
Qed.

Lemma run_invariant (evs : list event) (st : state) :
  sound st -> listening st ->
  sound (run evs st) /\ listening (run evs st).
Proof.
  revert st. induction evs as [|ev evs IH]; intros st Hs Hl; [now split|].
  cbn [run fold_left]. destruct (step_invariant ev st Hs Hl). now apply IH.
Qed.

Lemma run_sound (evs : list event) (st : state) :
  sound st -> listening st -> sound (run evs st).
Proof. intros Hs Hl. apply (run_invariant evs st Hs Hl). Qed.

(** ** The countdown of a request with time left *)

(** When time is left as the banner opens, the request is recorded and its
    countdown is the armed interval that [this.approvalCountdownInterval]
    names. *)
Lemma showApprovalBanner_running (message : string) (timeout : option Q)
    (now : Z) (st : state) :
  Qle_bool (remaining_seconds (timeout_of timeout) now now) 0 = false ->
  let st' := showApprovalBanner message timeout now st in
  let h := next_handle (env st) in
  pendingApproval (app st')
  = Some (mkApproval message (timeout_of timeout) now)
  /\ approvalCountdownInterval (app st') = Some h
  /\ intervals (env st')
     = (match approvalCountdownInterval (app st) with
        | Some old =>
            filter (fun c => negb (Pos.eqb (cd_handle c) old))
              (intervals (env st))
        | None => intervals (env st)
        end ++ [mkCountdown h message (timeout_of timeout)])%list.
Proof.
  intro Hleft. open_state st. unfold showApprovalBanner, updateBanner.
  fold (timeout_of timeout).
  destruct approvalCountdownInterval0, approval_banner0; compute_state;
    rewrite Hleft; compute_state; repeat split; reflexivity.
Qed.

Lemma find_countdown (h : positive) (c : countdown) (l : list countdown) :
  cd_handle c = h ->
  Forall (fun c' => (cd_handle c' < h)%positive) l ->
  find (fun c' => Pos.eqb (cd_handle c') h) (l ++ [c]) = Some c.
Proof.
  intros Hc Hl. induction Hl as [|c' l Hlt _ IH].
  - cbn. now rewrite Hc, Pos.eqb_refl.
  - cbn [List.app find].
    destruct (Pos.eqb_spec (cd_handle c') h) as [E|_]; [|exact IH].
    rewrite E in Hlt. destruct (Pos.lt_irrefl _ Hlt).
Qed.

(** A banner opened with time left counts down: a tick of its interval
    while time is left writes that time into the banner and keeps it on
    screen; the first tick at which none is left reports the timeout,
    takes the banner down and disarms the interval. *)
Lemma countdown_runs_out (message : string) (timeout : option Q)
    (opened_at now : Z) (st : state) :
  sound st ->
  Qle_bool (remaining_seconds (timeout_of timeout) opened_at opened_at) 0
  = false ->
  let remaining := remaining_seconds (timeout_of timeout) opened_at now in
  let content :=
    mkBannerContent (timeDisplay remaining) (escapeHtml message)
      approval_buttons in
  let opened := showApprovalBanner message timeout opened_at st in
  let st' := interval_fired (next_handle (env st)) now opened in
  (Qle_bool remaining 0 = false ->
   approval_banner (doc st') = Some (mkBanner "flex" (Some content))
   /\ app st' = app opened /\ env st' = env opened)
  /\ (Qle_bool remaining 0 = true ->
      approval_banner (doc st') = Some (mkBanner "none" (Some content))
      /\ pendingApproval (app st') = None
      /\ approvalCountdownInterval (app st') = None
      /\ ~ In (next_handle (env st)) (map cd_handle (intervals (env st')))
      /\ exists shown,
           toast_container (doc st')
           = Some (shown ++ [mkToast "toast toast-warning"
                               "Approval request timed out"])%list).
Proof.
  intros [(_ & _ & Hbelow) _] Hleft remaining content opened st'.
  destruct (showApprovalBanner_running message timeout opened_at st Hleft)
    as (Hpending & Hinterval & Harmed).
  fold opened in Hpending, Hinterval, Harmed.
  pose proof (showApprovalBanner_banner message timeout opened_at st) as Hbanner.
  fold opened in Hbanner.
  set (h := next_handle (env st)) in *.
  set (c := mkCountdown h message (timeout_of timeout)) in *.
  set (kept := match approvalCountdownInterval (app st) with
               | Some old =>
                   filter (fun c => negb (Pos.eqb (cd_handle c) old))
                     (intervals (env st))
               | None => intervals (env st)
               end) in *.
  assert (Hkept : Forall (fun c' => (cd_handle c' < h)%positive) kept).
  { unfold kept. destruct (approvalCountdownInterval (app st));
      [apply Forall_filter_keep|]; exact Hbelow. }
  assert (Hfired : st' = match updateBanner message (timeout_of timeout) now opened with
                         | Some s => s
                         | None => opened
                         end).
  { subst st'. unfold interval_fired. rewrite Harmed.
    rewrite (find_countdown h c kept eq_refl Hkept). reflexivity. }
  destruct (updateBanner_counts_down message (timeout_of timeout) now opened
              _ _ Hpending Hbanner) as (s & Hs & Hrun & Hout).
  cbn [startedAt] in Hrun, Hout. fold remaining in Hrun, Hout.
  fold content in Hrun, Hout.
  rewrite Hs in Hfired. split.
  - intro Hstill. rewrite Hfired, (Hrun Hstill).
    unfold on_banner. cbn [doc app env on_doc approval_banner
      set_approval_banner]. rewrite Hbanner. now repeat split.
  - intro Hup. rewrite Hfired.
    destruct (Hout Hup) as (Hb & Hp & Hi & Hl & Ht).
    split; [exact Hb|]. split; [exact Hp|]. split; [exact Hi|].
    split; [|exact Ht].
    rewrite Hl, Hinterval, Harmed, filter_app. cbn [filter cd_handle c].
    rewrite Pos.eqb_refl. cbn [negb]. rewrite app_nil_r.
    intro Hin. apply in_map_iff in Hin. destruct Hin as (c' & E & Hin).
    apply filter_In in Hin. destruct Hin as [_ Hne].
    rewrite E, Pos.eqb_refl in Hne. discriminate Hne.
Qed.

(** ** The channel that keeps failing *)

(** The first close of the channel of [A]: attempt 1 is armed with a delay
    of 2000 ms. *)
Lemma ws_onclose_reconnects_witness :
  handles_fresh watching_A
  /\ maxWsReconnectAttempts (app watching_A) = 5%nat
  /\ is_selected (app watching_A) "A" = true
  /\ (wsReconnectAttempts (app watching_A) < 5)%nat
  /\ wsReconnectAttempts (app (ws_onclose "A" watching_A)) = 1%nat
  /\ timeouts (env (ws_onclose "A" watching_A)) = [mkReconnect 2 2000 "A"].
Proof.
  assert (Hsound : sound watching_A).
  { apply run_sound;
      [apply initial_state_sound | apply initial_state_listening]. }
  destruct Hsound as [Hfresh Hmax].
  assert (Hselected : is_selected (app watching_A) "A" = true) by reflexivity.
  assert (Hfew : (wsReconnectAttempts (app watching_A) < 5)%nat).
  { vm_compute. repeat constructor. }
  destruct (ws_onclose_reconnects "A" watching_A Hfresh Hmax)
    as (_ & _ & Hretry & _).
  destruct (Hretry Hselected Hfew) as (Hcount & _ & Harmed & _).
  split; [exact Hfresh|]. split; [exact Hmax|]. split; [exact Hselected|].
  split; [exact Hfew|]. split; [exact Hcount|].
  exact Harmed.
Defined.

Example reconnect_delays :
  map (fun n => reconnect_delay n) [1; 2; 3; 4; 5]%nat
  = [2000; 4000; 8000; 16000; 30000]%Z.
Proof. reflexivity. Qed.

Example fifth_reconnect_is_the_last :
  let st := run channel_keeps_failing watching_A in
  wsReconnectAttempts (app st) = 5%nat
  /\ ws (app st) = Some 11%positive
  /\ timeouts (env st) = []
  /\ timeouts (env (run (firstn 9 channel_keeps_failing) watching_A))
     = [mkReconnect 10 30000 "A"]
  /\ let st' := step (SocketClosed 11) st in
     timeouts (env st') = []
     /\ wsReconnectAttempts (app st') = 5%nat
     /\ map sock_readyState (sockets (env st'))
        = [CLOSED; CLOSED; CLOSED; CLOSED; CLOSED; CLOSED].
Proof. cbv zeta. repeat split; vm_compute; reflexivity. Qed.

(** A first connection goes to the same address as a reconnect. *)
Lemma connectWebSocket_address (executionId : string) (st : state) :
  exists s : socket,
    In s (sockets (env (connectWebSocket executionId st)))
    /\ ws (app (connectWebSocket executionId st)) = Some (sock_handle s)
    /\ sock_url s = channel_url (env st) executionId
    /\ sent (env (connectWebSocket executionId st)) = sent (env st).
Proof.
  open_state st. unfold connectWebSocket, _connectWebSocket.
  destruct wsReconnectTimeout0, ws0; cbn; eexists;
    (split; [apply in_or_app; right; now left|]; repeat split; reflexivity).
Qed.

(** * Further properties *)

(** ** [groupPhases] on well-grouped phases *)

Lemma insert_by_order_perm (x : phase) (l : list phase) :
  Permutation (insert_by_order x l) (x :: l).
Proof.
  induction l as [|y l IH]; [reflexivity|].
  cbn [insert_by_order]. destruct (order_key x <=? order_key y)%Z;
    [reflexivity|].
  rewrite IH. apply perm_swap.
Qed.

Lemma sort_by_order_perm (l : list phase) :
  Permutation (sort_by_order l) l.
Proof.
  induction l as [|x l IH]; [reflexivity|].
  cbn [sort_by_order fold_right]. fold (sort_by_order l).
  rewrite insert_by_order_perm. now constructor.
Qed.

Lemma insert_by_order_sorted (x : phase) (l : list phase) :
  StronglySorted by_order l -> StronglySorted by_order (insert_by_order x l).
Proof.
  induction 1 as [|y l Hl IH Hy]; cbn [insert_by_order].
  - repeat constructor.
  - destruct (Z.leb_spec (order_key x) (order_key y)) as [Hle|Hgt].
    + constructor; [now constructor|].
      constructor; [exact Hle|].
      revert Hy. apply Forall_impl. intros z Hz. unfold by_order in *. lia.
    + constructor; [exact IH|].
      apply (Permutation_Forall (Permutation_sym (insert_by_order_perm x l))).
      constructor; [unfold by_order; lia | exact Hy].
Qed.

Lemma sort_by_order_sorted (l : list phase) :
  StronglySorted by_order (sort_by_order l).
Proof.
  induction l as [|x l IH]; [constructor|].
  cbn [sort_by_order fold_right]. now apply insert_by_order_sorted.
Qed.

(** The sort is stable: phases of one order index keep their places. *)
Lemma insert_by_order_stable (k : Z) (x : phase) (l : list phase) :
  of_order k (insert_by_order x l) = of_order k (x :: l).
Proof.
  unfold of_order. induction l as [|y l IH]; [reflexivity|].
  cbn [insert_by_order].
  destruct (Z.leb_spec (order_key x) (order_key y)) as [Hle|Hgt];
    [reflexivity|].
  cbn [filter] in *. rewrite IH.
  destruct (Z.eqb_spec (order_key x) k), (Z.eqb_spec (order_key y) k);
    try reflexivity.
  lia.
Qed.

Lemma sort_by_order_stable (k : Z) (l : list phase) :
  of_order k (sort_by_order l) = of_order k l.
Proof.
  induction l as [|x l IH]; [reflexivity|].
  cbn [sort_by_order fold_right]. fold (sort_by_order l).
  rewrite insert_by_order_stable. unfold of_order in *. cbn [filter].
  now rewrite IH.
Qed.

Lemma skipn_cons_nth {A : Type} (l : list A) (i : nat) (x : A) :
  nth_error l i = Some x -> skipn i l = x :: skipn (i + 1) l.
Proof.
  revert i. induction l as [|y l IH]; intros [|i] H; try discriminate.
  - injection H as ->. reflexivity.
  - cbn [skipn Nat.add]. now apply IH.
Qed.

Lemma skipn_add {A : Type} (l : list A) (i k : nat) :
  skipn k (skipn i l) = skipn (i + k) l.
Proof.
  revert l. induction i as [|i IH]; intro l; [reflexivity|].
  destruct l as [|x l]; [now rewrite !skipn_nil|]. cbn [skipn Nat.add].
  apply IH.
Qed.

Lemma existsb_filter_nil {A : Type} (f : A -> bool) (l : list A) :
  filter f l = [] -> existsb f l = false.
Proof.
  induction l as [|x l IH]; [reflexivity|]. cbn [filter existsb].
  destruct (f x); [discriminate|]. exact IH.
Qed.

(** On well-grouped phases the loop draws the rest of the list, card by
    card. *)
Lemma groupLoop_grouped (sorted : list phase) (i : nat) :
  grouped sorted i ->
  forall fuel, (List.length sorted - i <= fuel)%nat ->
  rendered_cards (groupLoop fuel sorted i) = skipn i sorted.
Proof.
  induction 1 as [i Hi | i ph Hnth Hnone _ IH | i ph members Hnth Hsome Hfilter
                  Hnext _ IH]; intros fuel Hfuel.
  - rewrite skipn_all2 by exact Hi.
    destruct fuel as [|fuel]; [reflexivity|]. cbn [groupLoop].
    apply nth_error_None in Hi. now rewrite Hi.
  - assert (Hlt : (i < List.length sorted)%nat).
    { apply nth_error_Some. congruence. }
    destruct fuel as [|fuel]; [lia|]. cbn [groupLoop].
    rewrite Hnth, Hnone, (existsb_filter_nil _ _ Hnone).
    cbn [List.length Z.of_nat Z.ltb Z.compare negb rendered_cards flat_map
           cards_of List.app].
    fold (rendered_cards (groupLoop fuel sorted (i + 1))).
    rewrite IH by lia. symmetry. now apply skipn_cons_nth.
  - assert (Hlt : (i < List.length sorted)%nat).
    { apply nth_error_Some. congruence. }
    destruct fuel as [|fuel]; [lia|]. cbn [groupLoop].
    rewrite Hnth, Hfilter.
    assert (Hk : (0 <? Z.of_nat (List.length members))%Z = true).
    { destruct members; [contradiction|]. reflexivity. }
    rewrite Hk. cbn [rendered_cards flat_map cards_of List.app].
    fold (rendered_cards
            (groupLoop fuel sorted (i + List.length members + 1))).
    rewrite IH by lia.
    rewrite (skipn_cons_nth sorted i ph Hnth). f_equal.
    transitivity (firstn (List.length members) (skipn (i + 1) sorted)
                  ++ skipn (List.length members) (skipn (i + 1) sorted))%list;
      [|apply firstn_skipn].
    rewrite Hnext, skipn_add. do 2 f_equal. lia.
Qed.

(** X1. When, in ascending order, every phase that others run alongside is
    directly followed by exactly those phases, [groupPhases] draws every
    phase exactly once: the cards are the phases in ascending order index,
    phases of equal index in the order they were given. *)
Theorem groupPhases_well_grouped (phases : list phase) :
  grouped (sort_by_order phases) 0 ->
  let cards := rendered_cards (groupPhases phases) in
  cards = sort_by_order phases
  /\ Permutation cards phases
  /\ StronglySorted by_order cards
  /\ forall k : Z, of_order k cards = of_order k phases.
Proof.
  intros Hgrouped cards.
  assert (E : cards = sort_by_order phases).
  { subst cards. unfold groupPhases.
    rewrite (groupLoop_grouped _ 0 Hgrouped) by lia. reflexivity. }
  rewrite E. split; [reflexivity|]. split; [apply sort_by_order_perm|].
  split; [apply sort_by_order_sorted|]. intro k. apply sort_by_order_stable.
Qed.

(** [ship], [check] and [draft], given in reverse. *)
Lemma groupPhases_well_grouped_witness :
  grouped (sort_by_order [ship; check; draft]) 0
  /\ rendered_cards (groupPhases [ship; check; draft]) = [draft; check; ship]
  /\ groupPhases [ship; check; draft]
     = [ParallelGroup draft [check] true; Standalone ship false].
Proof.
  assert (Hgrouped : grouped (sort_by_order [ship; check; draft]) 0).
  { apply (grouped_parallel _ 0 draft [check]);
      [reflexivity | discriminate | reflexivity | reflexivity |].
    apply (grouped_single _ 2 ship); [reflexivity | reflexivity |].
    apply grouped_end. cbn. lia. }
  split; [exact Hgrouped|]. split; [|reflexivity].
  exact (proj1 (groupPhases_well_grouped [ship; check; draft] Hgrouped)).
Defined.

(** ** [groupPhases] and [renderPipeline] without parallel phases *)

Lemma groupLoop_standalone (sorted : list phase) :
  (forall t p, In t sorted -> In p sorted -> runs_alongside t p = false) ->
  forall fuel i,
    (List.length sorted - i <= fuel)%nat ->
    groupLoop fuel sorted i
    = standalone_from (Z.of_nat (List.length sorted)) i (skipn i sorted).
Proof.
  intros Hnone.
  assert (Hfilter : forall t, In t sorted ->
            filter (runs_alongside t) sorted = []).
  { intros t Ht.
    assert (Hsub : forall l, (forall p, In p l -> In p sorted) ->
              filter (runs_alongside t) l = []).
    { induction l as [|p l IH]; intro Hl; [reflexivity|]. cbn [filter].
      rewrite (Hnone t p Ht) by (apply Hl; now left).
      apply IH. intros q Hq. apply Hl. now right. }
    apply Hsub. auto. }
  induction fuel as [|fuel IH]; intros i Hfuel.
  - rewrite skipn_all2 by lia. reflexivity.
  - cbn [groupLoop]. destruct (nth_error sorted i) as [ph|] eqn:Hi.
    + pose proof (nth_error_In _ _ Hi) as Hin.
      assert (Hlt : (i < List.length sorted)%nat).
      { apply nth_error_Some. congruence. }
      rewrite (Hfilter ph Hin), (existsb_filter_nil _ _ (Hfilter ph Hin)).
      cbn [List.length Z.of_nat Z.ltb Z.compare negb].
      rewrite (skipn_cons_nth sorted i ph Hi). cbn [standalone_from].
      rewrite IH by lia. now rewrite Nat.add_1_r.
    + apply nth_error_None in Hi. rewrite skipn_all2 by exact Hi.
      reflexivity.
Qed.

Lemma standalone_from_cards (n : Z) (i : nat) (l : list phase) :
  rendered_cards (standalone_from n i l) = l.
Proof.
  revert i. induction l as [|p l IH]; intro i; [reflexivity|].
  cbn [standalone_from rendered_cards flat_map cards_of List.app].
  fold (rendered_cards (standalone_from n (S i) l)). now rewrite IH.
Qed.

Lemma groupPhases_standalone (phases : list phase) :
  (forall t p, In t phases -> In p phases -> runs_alongside t p = false) ->
  groupPhases phases
  = standalone_from (Z.of_nat (List.length phases)) 0 (sort_by_order phases).
Proof.
  intro Hnone. unfold groupPhases.
  pose proof (sort_by_order_perm phases) as Hperm.
  rewrite (groupLoop_standalone (sort_by_order phases)); [|..|lia].
  - now rewrite (Permutation_length Hperm).
  - intros t p Ht Hp.
    apply Hnone; apply (Permutation_in _ Hperm); assumption.
Qed.

(** X2. When no phase of the list names another (or itself) in
    [parallel_with], [groupPhases] draws one stand-alone card per phase, in
    ascending order index, with a connector after every card but the
    last. *)
Theorem groupPhases_without_parallel (phases : list phase) :
  (forall t p, In t phases -> In p phases -> parallel_with p <> phase_id t) ->
  groupPhases phases
  = standalone_from (Z.of_nat (List.length phases)) 0 (sort_by_order phases)
  /\ rendered_cards (groupPhases phases) = sort_by_order phases
  /\ Permutation (rendered_cards (groupPhases phases)) phases.
Proof.
  intro Hnone.
  assert (E : groupPhases phases
              = standalone_from (Z.of_nat (List.length phases)) 0
                  (sort_by_order phases)).
  { apply groupPhases_standalone. intros t p Ht Hp. unfold runs_alongside.
    destruct (js_string_eqb_spec (parallel_with p) (phase_id t)) as [E|_];
      [|reflexivity].
    destruct (Hnone t p Ht Hp E). }
  rewrite E, standalone_from_cards.
  split; [reflexivity|]. split; [reflexivity|]. apply sort_by_order_perm.
Qed.

Lemma groupPhases_without_parallel_witness :
  (forall t p, In t [build; plan] -> In p [build; plan] ->
               parallel_with p <> phase_id t)
  /\ groupPhases [build; plan] = [Standalone plan true; Standalone build false].
Proof.
  assert (Hnone : forall t p, In t [build; plan] -> In p [build; plan] ->
                              parallel_with p <> phase_id t).
  { intros t p [<-|[<-|[]]] [<-|[<-|[]]]; discriminate. }
  split; [exact Hnone|].
  exact (proj1 (groupPhases_without_parallel [build; plan] Hnone)).
Defined.





(** ** [truncate] and [formatDuration] *)

Lemma substring_length (n : nat) (s : string) :
  String.length (String.substring 0 n s) = Nat.min n (String.length s).
Proof.
  revert n. induction s as [|c s IH]; intros [|n]; try reflexivity.
  cbn [String.substring String.length Nat.min]. now rewrite IH.
Qed.

Lemma append_length (s t : string) :
  String.length (s ++ t) = (String.length s + String.length t)%nat.
Proof.
  induction s as [|c s IH]; [reflexivity|].
  cbn [append String.length]. now rewrite IH.
Qed.


Lemma truncate_length (str : string) (len : nat) :
  String.length (truncate str len)
  = (if (len <? String.length str)%nat then len + 3 else String.length str)%nat.
Proof.
  unfold truncate.
  destruct (Nat.ltb_spec len (String.length str)) as [Hlong|Hshort];
    [|reflexivity].
  rewrite append_length, substring_length.
  replace (Nat.min len (String.length str)) with len by lia. reflexivity.
Qed.


Lemma Qfloor_unique (x : Q) (z : Z) :
  inject_Z z <= x -> x < inject_Z (z + 1) -> Qfloor x = z.
Proof.
  intros Hle Hlt.
  assert (H1 : (z <= Qfloor x)%Z).
  { rewrite <- (Qfloor_Z z). now apply Qfloor_resp_le. }
  assert (H2 : (Qfloor x < z + 1)%Z).
  { rewrite Zlt_Qlt. apply (Qle_lt_trans _ x); [apply Qfloor_le | exact Hlt]. }
  lia.
Qed.

Lemma two_digits (sec : Z) :
  (0 <= sec < 60)%Z -> String.length (padStart0 2 (digits sec)) = 2%nat.
Proof.
  intro H. rewrite <- (Z2Nat.id sec) by lia.
  assert (Hn : (Z.to_nat sec < 60)%nat) by lia.
  generalize dependent (Z.to_nat sec). clear. intros n Hn.
  do 60 (destruct n as [|n]; [reflexivity|]). lia.
Qed.

(** X5. For a duration of [seconds >= 0], [formatDuration] prints the whole
    minutes, a colon, and the remaining whole seconds as exactly two
    digits between 00 and 59. *)
Theorem formatDuration_minutes_seconds (seconds : Q) :
  0 <= seconds ->
  exists m sec : Z,
    (0 <= m)%Z /\ (0 <= sec < 60)%Z
    /\ (60 * m + sec)%Z = Qfloor seconds
    /\ formatDuration seconds = digits m ++ ":" ++ padStart0 2 (digits sec)
    /\ String.length (padStart0 2 (digits sec)) = 2%nat.
Proof.
  intro Hpos.
  set (m := Qfloor (seconds / 60)).
  set (f := Qfloor seconds).
  pose proof (Qfloor_le (seconds / 60)) as Hm1.
  pose proof (Qlt_floor (seconds / 60)) as Hm2.
  pose proof (Qfloor_le seconds) as Hf1.
  pose proof (Qlt_floor seconds) as Hf2.
  fold m in Hm1, Hm2. fold f in Hf1, Hf2.
  rewrite inject_Z_plus in Hm2, Hf2.
  change (inject_Z 1) with (1 # 1) in Hm2, Hf2.
  assert (Hdiv : seconds / 60 == seconds * (1 # 60)) by reflexivity.
  rewrite Hdiv in Hm1, Hm2.
  assert (Hm0 : (0 <= m)%Z).
  { subst m. rewrite <- (Qfloor_Z 0). apply Qfloor_resp_le.
    rewrite Hdiv. change (inject_Z 0) with (0 # 1). lra. }
  assert (Hlow : (60 * m <= f)%Z).
  { subst f. rewrite <- (Qfloor_Z (60 * m)). apply Qfloor_resp_le.
    rewrite inject_Z_mult. change (inject_Z 60) with (60 # 1). lra. }
  assert (Hhigh : (f < 60 * m + 60)%Z).
  { rewrite Zlt_Qlt, inject_Z_plus, inject_Z_mult.
    change (inject_Z 60) with (60 # 1). lra. }
  assert (Htrunc : Qtrunc (seconds / 60) = m).
  { unfold Qtrunc.
    assert (Hno : Qgtb 0 (seconds / 60) = false).
    { apply Qgtb_false. rewrite Hdiv. lra. }
    now rewrite Hno. }
  assert (Hsec : Qfloor (js_rem seconds 60) = (f - 60 * m)%Z).
  { unfold js_rem. rewrite Htrunc. apply Qfloor_unique.
    - unfold Zminus. rewrite inject_Z_plus, inject_Z_opp, inject_Z_mult.
      change (inject_Z 60) with (60 # 1). lra.
    - replace (f - 60 * m + 1)%Z with (f + 1 - 60 * m)%Z by lia.
      unfold Zminus.
      rewrite inject_Z_plus, inject_Z_opp, inject_Z_mult, inject_Z_plus.
      change (inject_Z 60) with (60 # 1). change (inject_Z 1) with (1 # 1).
      lra. }
  exists m, (f - 60 * m)%Z.
  split; [exact Hm0|]. split; [lia|]. split; [lia|].
  split; [|apply two_digits; lia].
  unfold formatDuration. cbv zeta. fold m. rewrite Hsec.
  unfold int_string.
  destruct (Z.ltb_spec m 0) as [|_]; [lia|].
  destruct (Z.ltb_spec (f - 60 * m) 0) as [|_]; [lia|]. reflexivity.
Qed.

Lemma formatDuration_minutes_seconds_witness :
  0 <= 125 /\ formatDuration 125 = "2:05"
  /\ exists m sec : Z,
       (0 <= sec < 60)%Z /\ (60 * m + sec)%Z = Qfloor 125
       /\ formatDuration 125 = digits m ++ ":" ++ padStart0 2 (digits sec).
Proof.
  assert (Hpos : 0 <= 125) by discriminate.
  split; [exact Hpos|]. split; [reflexivity|].
  destruct (formatDuration_minutes_seconds 125 Hpos)
    as (m & sec & _ & Hsec & Hsum & Hprint & _).
  exists m, sec. split; [exact Hsec|]. split; [exact Hsum | exact Hprint].
Defined.

(** ** [renderMiniPipeline] *)





(** ** The execution list and its menu *)

Lemma filter_idempotent {A : Type} (f : A -> bool) (l : list A) :
  filter f (filter f l) = filter f l.
Proof.
  induction l as [|x l IH]; [reflexivity|]. cbn [filter].
  destruct (f x) eqn:E; [|exact IH]. cbn [filter]. now rewrite E, IH.
Qed.

(** X7. The list filter never invents an execution and filtering twice
    changes nothing; under [running] and [completed] an execution that is
    paused, awaiting approval or cancelled is not listed; any filter other
    than these two lists everything. *)
Theorem filterExecutionList_tabs (currentFilter : string)
    (l : list execution) :
  incl (filterExecutionList currentFilter l) l
  /\ filterExecutionList currentFilter (filterExecutionList currentFilter l)
     = filterExecutionList currentFilter l
  /\ (forall e,
         currentFilter = "running" \/ currentFilter = "completed" ->
         In (exec_status e) ["paused"; "awaiting_approval"; "cancelled"] ->
         ~ In e (filterExecutionList currentFilter l))
  /\ (currentFilter <> "running" -> currentFilter <> "completed" ->
      filterExecutionList currentFilter l = l).
Proof.
  unfold filterExecutionList.
  destruct (String.eqb_spec currentFilter "all") as [->|Hall].
  - cbn. split; [apply incl_refl|]. split; [reflexivity|].
    split; [intros e [E|E]; discriminate E | reflexivity].
  - destruct (String.eqb_spec currentFilter "running") as [->|Hrunning].
    + split; [apply incl_filter|]. split; [apply filter_idempotent|].
      split; [|intro H; now destruct H].
      intros e _ Hstatus Hin. apply filter_In in Hin. destruct Hin as [_ Hin].
      unfold status_is in Hin.
      destruct Hstatus as [E|[E|[E|[]]]]; rewrite <- E in Hin;
        discriminate Hin.
    + destruct (String.eqb_spec currentFilter "completed") as [->|Hcompleted].
      * split; [apply incl_filter|]. split; [apply filter_idempotent|].
        split; [|intros _ H; now destruct H].
        intros e _ Hstatus Hin. apply filter_In in Hin.
        destruct Hin as [_ Hin]. unfold status_is in Hin.
        destruct Hstatus as [E|[E|[E|[]]]]; rewrite <- E in Hin;
        discriminate Hin.
      * split; [apply incl_refl|]. split; [reflexivity|].
        split; [intros e [E|E]; contradiction | reflexivity].
Qed.

Lemma substring_chars (n : nat) (s : string) :
  Forall not_angle (chars s) ->
  Forall not_angle (chars (String.substring 0 n s)).
Proof.
  revert n. induction s as [|c s IH]; intros [|n] H; try constructor.
  - inversion H. assumption.
  - apply IH. now inversion H.
Qed.

Lemma truncate_chars (s : string) (n : nat) :
  Forall not_angle (chars s) -> Forall not_angle (chars (truncate s n)).
Proof.
  intro H. unfold truncate. destruct (n <? String.length s)%nat; [|exact H].
  rewrite chars_app. apply Forall_app. split; [now apply substring_chars|].
  repeat constructor; discriminate.
Qed.

Lemma escapeHtml_chars (s : string) : Forall not_angle (chars (escapeHtml s)).
Proof. rewrite escapeHtml_escape_text. apply escape_text_no_angle. Qed.

(** X8. [renderExecutionList] draws the empty state exactly when the
    filter leaves nothing, and otherwise one card per listed execution,
    in order; the id, the title attribute and the title of every card hold
    no [<] and no [>], whatever the id and the task description are, and
    the title is at most 28 characters long. *)
Theorem renderExecutionList_cards (st : state) :
  let listed := filterExecutionList (currentFilter (app st)) (executions (app st)) in
  match execution_list (doc (renderExecutionList st)) with
  | EmptyState => listed = []
  | Cards cards =>
      listed <> []
      /\ map card_execution_id cards = map (fun e => escapeHtml (exec_id e)) listed
      /\ Forall (fun c =>
                   Forall not_angle (chars (card_execution_id c))
                   /\ Forall not_angle (chars (card_title_attr c))
                   /\ Forall not_angle (chars (card_title c))
                   /\ (String.length (card_title c) <= 28)%nat) cards
  end.
Proof.
  intro listed. unfold renderExecutionList. fold listed.
  destruct listed as [|e l] eqn:E; [reflexivity|].
  cbn [doc on_doc execution_list set_execution_list].
  split; [discriminate|]. split.
  - rewrite map_map. reflexivity.
  - apply Forall_map. apply Forall_forall. intros x _.
    cbn [execution_card_of card_execution_id card_title_attr card_title].
    split; [apply escapeHtml_chars|]. split; [apply escapeHtml_chars|].
    split; [apply truncate_chars, escapeHtml_chars|].
    rewrite truncate_length. destruct (_ <? _)%nat eqn:E'; [lia|].
    apply Nat.ltb_ge in E'. lia.
Qed.

Ltac split_status s :=
  destruct (String.eqb_spec s "pending") as [->|?];
    [|destruct (String.eqb_spec s "running") as [->|?];
      [|destruct (String.eqb_spec s "paused") as [->|?];
        [|destruct (String.eqb_spec s "awaiting_approval") as [->|?];
          [|destruct (String.eqb_spec s "completed") as [->|?];
            [|destruct (String.eqb_spec s "failed") as [->|?];
              [|destruct (String.eqb_spec s "cancelled") as [->|?]]]]]]].

(** Where the action bar offers Cancel. *)
Lemma renderActions_cancel_helper (e : execution) :
  existsb (is_cancel_control e) (renderActions e)
  = (status_is e "running" || status_is e "paused"
     || status_is e "awaiting_approval").
Proof.
  destruct e as [id s description phases].
  unfold renderActions, status_is, is_cancel_control.
  cbn [exec_status exec_id existsb].
  destruct (String.eqb s "pending"), (String.eqb s "running"),
    (String.eqb s "paused"), (String.eqb s "awaiting_approval"),
    (String.eqb s "completed"), (String.eqb s "failed"),
    (String.eqb s "cancelled");
  cbn; rewrite ?String.eqb_refl; reflexivity.
Qed.

(** X9. The context menu shows its Cancel item exactly when the execution
    it was opened on is in the list and running - then the action bar of
    that execution offers Cancel too - and it remembers the id it was
    opened on. *)
Theorem showContextMenu_cancel_item (x y : Q) (executionId : string)
    (executions : list execution) (r : placement) :
  let shown := showContextMenu x y executionId executions r in
  (cancel_item_display (fst shown) = "flex"
   <-> exists e,
         find (fun e => String.eqb (exec_id e) executionId) executions = Some e
         /\ exec_status e = "running")
  /\ (cancel_item_display (fst shown) = "flex" ->
      exists e,
        In e executions /\ exec_id e = executionId
        /\ existsb (is_cancel_control e) (renderActions e) = true)
  /\ (cancel_item_display (fst shown) = "flex"
      \/ cancel_item_display (fst shown) = "none")
  /\ menu_open (fst shown) = true
  /\ snd shown = executionId.
Proof.
  intro shown. subst shown. unfold showContextMenu.
  cbn [fst snd cancel_item_display menu_open].
  destruct (find _ executions) as [e|] eqn:Hfind.
  - pose proof (find_some _ _ Hfind) as [Hin Hid].
    apply String.eqb_eq in Hid. unfold status_is.
    destruct (String.eqb_spec (exec_status e) "running") as [Hrun|Hrun].
    + split; [split; [intros _; now exists e | reflexivity]|].
      split; [|split; [now left | now split]].
      intros _. exists e. split; [exact Hin|]. split; [exact Hid|].
      rewrite renderActions_cancel_helper. unfold status_is. now rewrite Hrun.
    + split; [split; [discriminate|]|].
      * intros (e' & E & Hr). injection E as <-. contradiction.
      * split; [discriminate|]. split; [now right | now split].
  - split; [split; [discriminate | intros (e & E & _); discriminate E]|].
    split; [discriminate|]. split; [now right | now split].
Qed.
